(** * The book catalogue of [index.py]: model and verified properties

    The program keeps a list of [Book] objects in a [Library] object and
    rewrites one JSON file after every change.  Python is dynamically typed,
    and what [json.load] hands back is whatever the file holds, so the
    attributes of a [Book] are modelled as Python values ([value]) and the
    operations return either a result or the exception Python raises.

    Conventions.
    - A Python [str] is a [string] holding its UTF-8 bytes.  Substring tests
      and equality on such byte strings agree with the ones on code points.
      A str can hold a lone surrogate (U+D800 to U+DFFF), which UTF-8 cannot
      encode; it is held as the three bytes ED, A0..BF, 80..BF.
    - The file and the console are UTF-8, as [encoding='utf-8'] says for the
      file: writing a str with a lone surrogate raises UnicodeEncodeError.
    - The text layer of the [json] module is not modelled: the backing file
      is described by what [json.load] does on it ([file_state]), and
      [json.dump] leaves a file on which [json.load] returns the dumped
      document.  Numbers with a fraction or an exponent (Python floats) are
      outside the model.
    - A Python [int] is an integer of any size ([Z]), and writing it as text
      is total: the limit an interpreter may put on the number of digits of
      an int turned into text ([sys.set_int_max_str_digits]) is taken as
      never reached by the ints of the store.
    - [str.lower] and [repr] on containers belong to the Python runtime; the
      search function takes them as parameters. *)

From Stdlib Require Import ZArith List String Ascii Bool Lia DecimalString.
From Stdlib Require Import Sorting.Sorted.
Import ListNotations.
Open Scope string_scope.
Open Scope Z_scope.
Open Scope list_scope.

(** ** Python values and exceptions *)

(** The values [json.load] can return (floats apart). A [VDict] lists the
    entries of a dict in insertion order. *)
#[local] Unset Elimination Schemes.
Inductive value : Type :=
| VNone
| VBool (b : bool)
| VInt (z : Z)
| VStr (s : string)
| VList (items : list value)
| VDict (entries : list (string * value)).
#[local] Set Elimination Schemes.

Inductive exn : Type :=
| TypeError
| KeyError (key : string)
| AttributeError
| UnicodeDecodeError
| UnicodeEncodeError.

Inductive result (A : Type) : Type :=
| Ok (a : A)
| Raise (e : exn).

Arguments Ok {A} a.
Arguments Raise {A} e.

Definition bind {A B : Type} (m : result A) (k : A -> result B) : result B :=
  match m with
  | Ok a => k a
  | Raise e => Raise e
  end.

Notation "x <- m ;; k" := (bind m (fun x => k))
  (at level 61, m at next level, right associativity).

(** A list comprehension whose element expression may raise. *)
Fixpoint mapM {A B : Type} (f : A -> result B) (l : list A) : result (list B) :=
  match l with
  | [] => Ok []
  | a :: rest => b <- f a ;; bs <- mapM f rest ;; Ok (b :: bs)
  end.

(** A list comprehension whose condition may raise. *)
Fixpoint filterM {A : Type} (p : A -> result bool) (l : list A) : result (list A) :=
  match l with
  | [] => Ok []
  | a :: rest =>
      keep <- p a ;; kept <- filterM p rest ;;
      Ok (if keep then a :: kept else kept)
  end.

Fixpoint lookup (key : string) (entries : list (string * value)) : option value :=
  match entries with
  | [] => None
  | (k, v) :: rest => if String.eqb key k then Some v else lookup key rest
  end.

(** [v[key]] for a [str] key. *)
Definition subscript (v : value) (key : string) : result value :=
  match v with
  | VDict entries =>
      match lookup key entries with
      | Some x => Ok x
      | None => Raise (KeyError key)
      end
  | _ => Raise TypeError
  end.

(** Bytes 10xxxxxx continue a UTF-8 sequence. *)
Definition is_continuation (c : ascii) : bool :=
  let n := N_of_ascii c in (128 <=? n)%N && (n <? 192)%N.

Definition continues (s : string) : bool :=
  match s with
  | String c _ => is_continuation c
  | EmptyString => false
  end.

(** The characters of a [str], each as a one-character [str]. *)
Fixpoint chars (s : string) : list string :=
  match s with
  | EmptyString => []
  | String c rest =>
      match chars rest with
      | group :: groups =>
          if continues rest then String c group :: groups
          else String c EmptyString :: group :: groups
      | [] => [String c EmptyString]
      end
  end.

(** [for x in v]: the elements Python iterates over. *)
Definition iterate (v : value) : result (list value) :=
  match v with
  | VList items => Ok items
  | VDict entries => Ok (map (fun kv => VStr (fst kv)) entries)
  | VStr s => Ok (map VStr (chars s))
  | VNone | VBool _ | VInt _ => Raise TypeError
  end.

(** [v == n] for an [int] [n]; [bool] is a subclass of [int] in Python. *)
Definition eq_int (v : value) (n : Z) : bool :=
  match v with
  | VInt z => z =? n
  | VBool b => Z.b2z b =? n
  | _ => false
  end.

(** ** Book *)

Record Book : Type := mkBook {
  id : value;
  title : value;
  author : value;
  year : value;
  status : value
}.

Definition available : string := "в наличии".
Definition checked_out : string := "выдана".

(** [Book.__init__] *)
Definition Book_init (title author year id : value) : Book :=
  {| id := id; title := title; author := author; year := year;
     status := VStr available |}.

Definition set_status (book : Book) (s : value) : Book :=
  {| id := id book; title := title book; author := author book;
     year := year book; status := s |}.

(** ** Library and its backing file *)

(** What the backing file is to [load_books]. *)
Inductive file_state : Type :=
| Missing                (* os.path.exists is False *)
| BadUtf8                (* reading the text raises UnicodeDecodeError *)
| BadJson                (* json.load raises JSONDecodeError *)
| Json (doc : value).    (* json.load returns doc *)

(** The [Library] object together with its file; [saves] counts the times
    the file has been rewritten. *)
Record State : Type := mkState {
  books : list Book;
  file : file_state;
  saves : nat
}.

Definition set_books (st : State) (bs : list Book) : State :=
  {| books := bs; file := file st; saves := saves st |}.

(** [Library._create_book_from_dict] *)
Definition _create_book_from_dict (book_dict : value) : result Book :=
  t <- subscript book_dict "title" ;;
  a <- subscript book_dict "author" ;;
  y <- subscript book_dict "year" ;;
  i <- subscript book_dict "id" ;;
  let book := Book_init t a y i in
  s <- subscript book_dict "status" ;;
  Ok (set_status book s).

(** [Library._books_to_dict] *)
Definition book_to_dict (book : Book) : value :=
  VDict [("id", id book); ("title", title book); ("author", author book);
         ("year", year book); ("status", status book)].

Definition _books_to_dict (bs : list Book) : value :=
  VList (map book_to_dict bs).

(** [Library.load_books] *)
Definition load_books (st : State) : result State :=
  match file st with
  | Missing => Ok st
  | BadUtf8 => Raise UnicodeDecodeError
  | BadJson => Ok (set_books st [])
  | Json book_data =>
      items <- iterate book_data ;;
      bs <- mapM _create_book_from_dict items ;;
      Ok (set_books st bs)
  end.

(** [Library.save_books] *)
Definition save_books (st : State) : State :=
  {| books := books st;
     file := Json (_books_to_dict (books st));
     saves := S (saves st) |}.

(** [Library.__init__], on a disk whose backing file is [f]. *)
Definition Library_init (f : file_state) : result State :=
  load_books {| books := []; file := f; saves := 0 |}.

(** [max(ns, default=default)] on integers. *)
Definition maximum (default : Z) (ns : list Z) : Z :=
  match ns with
  | [] => default
  | n :: rest => fold_left Z.max rest n
  end.

Definition as_number (v : value) : option Z :=
  match v with
  | VInt z => Some z
  | VBool b => Some (Z.b2z b)
  | _ => None
  end.

Fixpoint numbers (vs : list value) : option (list Z) :=
  match vs with
  | [] => Some []
  | v :: rest =>
      match as_number v, numbers rest with
      | Some n, Some ns => Some (n :: ns)
      | _, _ => None
      end
  end.

(** [max([book.id for book in self.books], default=0) + 1].  When every id
    is a number this is the largest one plus one.  When some id is None, a
    str, a list or a dict, Python raises TypeError: comparing it with a
    number fails, and if no comparison fails [max] returns one of the ids
    that are not numbers, which [+ 1] rejects. *)
Definition next_id (bs : list Book) : result Z :=
  match numbers (map id bs) with
  | Some ns => Ok (maximum 0 ns + 1)
  | None => Raise TypeError
  end.

(** [Library.add_book] *)
Definition add_book (title author : string) (year : Z) (st : State)
  : result (Z * State) :=
  new_id <- next_id (books st) ;;
  let new_book := Book_init (VStr title) (VStr author) (VInt year) (VInt new_id) in
  let st := set_books st (books st ++ [new_book]) in
  Ok (new_id, save_books st).

(** [Library.remove_book] *)
Definition remove_book (book_id : Z) (st : State) : bool * State :=
  let initial_length := List.length (books st) in
  let st :=
    set_books st (filter (fun book => negb (eq_int (id book) book_id)) (books st)) in
  if (List.length (books st) <? initial_length)%nat
  then (true, save_books st)
  else (false, st).

(** [new_status in ["в наличии", "выдана"]] *)
Definition is_status (new_status : string) : bool :=
  existsb (String.eqb new_status) [available; checked_out].

(** The loop of [change_book_status]: the list after the assignment
    [book.status = new_status], or [None] when the loop runs to its end. *)
Fixpoint assign_status (book_id : Z) (new_status : string) (bs : list Book)
  : option (list Book) :=
  match bs with
  | [] => None
  | book :: rest =>
      if eq_int (id book) book_id then
        if is_status new_status
        then Some (set_status book (VStr new_status) :: rest)
        else option_map (cons book) (assign_status book_id new_status rest)
      else option_map (cons book) (assign_status book_id new_status rest)
  end.

(** [Library.change_book_status] *)
Definition change_book_status (book_id : Z) (new_status : string) (st : State)
  : bool * State :=
  match assign_status book_id new_status (books st) with
  | Some bs => (true, save_books (set_books st bs))
  | None => (false, st)
  end.

(** [Library.get_all_books] *)
Definition get_all_books (st : State) : list Book := books st.

(** [needle in hay] on [str]. *)
Fixpoint contains (needle hay : string) : bool :=
  String.prefix needle hay
  || match hay with
     | EmptyString => false
     | String _ rest => contains needle rest
     end.

(** [str(n)] for an [int]. *)
Definition str_of_int (n : Z) : string := NilZero.string_of_int (Z.to_int n).

Section Search.

(** [str.lower], and [repr] on lists and dicts. *)
Variable lower : string -> string.
Variable repr : value -> string.

(** [v.lower()] *)
Definition lower_of (v : value) : result string :=
  match v with
  | VStr s => Ok (lower s)
  | _ => Raise AttributeError
  end.

(** [str(v)] *)
Definition str (v : value) : string :=
  match v with
  | VStr s => s
  | VInt z => str_of_int z
  | VBool true => "True"
  | VBool false => "False"
  | VNone => "None"
  | VList _ | VDict _ => repr v
  end.

(** The condition of the comprehension in [search_books]; [or] evaluates
    its right operand only when the left one is false. *)
Definition matches (query : string) (book : Book) : result bool :=
  t <- lower_of (title book) ;;
  if contains query t then Ok true else
  a <- lower_of (author book) ;;
  if contains query a then Ok true else
  Ok (String.eqb query (str (year book))).

(** [Library.search_books] *)
Definition search_books (query : string) (st : State) : result (list Book) :=
  let query := lower query in
  filterM (matches query) (books st).

End Search.

(** ** Runs of the program *)

(** One mutating call that returns normally.  [search_books] and
    [get_all_books] leave the state as it is. *)
Inductive step : State -> State -> Prop :=
| step_add title author year st new_id st' :
    add_book title author year st = Ok (new_id, st') -> step st st'
| step_remove book_id st :
    step st (snd (remove_book book_id st))
| step_change book_id new_status st :
    step st (snd (change_book_status book_id new_status st)).

(** The states a program started on the backing file [f] can be in. *)
Inductive reachable (f : file_state) : State -> Prop :=
| reach_init st : Library_init f = Ok st -> reachable f st
| reach_step st st' : reachable f st -> step st st' -> reachable f st'.

(** ** The file format, as the specification words it *)

(** A record object of the persisted file: an integer [id], a text [title]
    and [author], an integer [year] and a [status] that is one of the two
    labels. *)
Definition is_record (v : value) : bool :=
  match v with
  | VDict entries =>
      match lookup "id" entries, lookup "title" entries,
            lookup "author" entries, lookup "year" entries,
            lookup "status" entries with
      | Some (VInt _), Some (VStr _), Some (VStr _), Some (VInt _),
        Some (VStr s) => is_status s
      | _, _, _, _, _ => false
      end
  | _ => false
  end.

(** The file holds an ordered sequence of record objects. *)
Definition validly_structured (f : file_state) : bool :=
  match f with
  | Json (VList items) => forallb is_record items
  | _ => false
  end.

(** ** Notions used in the statements *)

(** [book.id == book_id] *)
Definition has_id (book_id : Z) (book : Book) : bool := eq_int (id book) book_id.

(** The status is one of the two labels. *)
Definition status_ok (book : Book) : Prop :=
  status book = VStr available \/ status book = VStr checked_out.

(** The ids are the integers [ns], in order. *)
Definition int_ids (bs : list Book) (ns : list Z) : Prop :=
  map id bs = map VInt ns.

(** The ids are pairwise distinct integers. *)
Definition distinct_ids (bs : list Book) : Prop :=
  exists ns, int_ids bs ns /\ NoDup ns.


(** Title and author are text and the year is an integer, as the data model
    has them. *)
Definition typed (book : Book) : bool :=
  match title book, author book, year book with
  | VStr _, VStr _, VInt _ => true
  | _, _, _ => false
  end.

Definition has_text_title (book : Book) : bool :=
  match title book with
  | VStr _ => true
  | _ => false
  end.

(** The search criterion in the specification's words: the title or the
    author contains the query, letter case ignored, or the year written as
    text is the query. *)
Definition wanted (lower : string -> string) (query : string) (book : Book)
  : bool :=
  match title book, author book, year book with
  | VStr t, VStr a, VInt y =>
      contains (lower query) (lower t)
      || contains (lower query) (lower a)
      || String.eqb query (str_of_int y)
  | _, _, _ => false
  end.

(** [str.lower] on ASCII text: A-Z go to a-z, every other byte stays. *)
Definition lower_ascii (c : ascii) : ascii :=
  let n := N_of_ascii c in
  if (65 <=? n)%N && (n <=? 90)%N then ascii_of_N (n + 32) else c.

Fixpoint ascii_lower (s : string) : string :=
  match s with
  | EmptyString => EmptyString
  | String c rest => String (lower_ascii c) (ascii_lower rest)
  end.

(** [repr] of a list or dict, for runs whose years are integers. *)
Definition no_repr (v : value) : string := EmptyString.

(** The bytes [str] of an [int] is made of: the digits and the minus sign. *)
Definition is_plain (c : ascii) : bool :=
  let n := N_of_ascii c in
  ((48 <=? n)%N && (n <=? 57)%N) || (n =? 45)%N.

Fixpoint all_plain (s : string) : bool :=
  match s with
  | EmptyString => true
  | String c rest => is_plain c && all_plain rest
  end.

(** The keys [_create_book_from_dict] subscripts, in the order it does. *)
Definition record_keys : list string :=
  ["title"; "author"; "year"; "id"; "status"].

(** An empty dict or an empty str: iterable, with nothing to iterate. *)
Definition is_empty_container (v : value) : bool :=
  match v with
  | VDict [] => true
  | VStr EmptyString => true
  | _ => false
  end.

(** The id is a number to Python ([int] or [bool]). *)
Definition numeric_id (book : Book) : bool :=
  match as_number (id book) with
  | Some _ => true
  | None => false
  end.

(** The id is None, a str, a list or a dict: nothing that [max] and [+ 1]
    take. *)
Definition no_number (book : Book) : bool :=
  match id book with
  | VNone | VStr _ | VList _ | VDict _ => true
  | VBool _ | VInt _ => false
  end.

(** Title and author are [str], so that [.lower()] exists on both. *)
Definition has_texts (book : Book) : bool :=
  match title book, author book with
  | VStr _, VStr _ => true
  | _, _ => false
  end.

(** ** Writing the file

    [save_books] above is the save that completes.  The file is opened with
    [encoding='utf-8'], and [json.dump] raises UnicodeEncodeError, a
    ValueError, at the first str that holds a lone surrogate.  By then
    [open(..., 'w')] has emptied the file, which is left with the beginning
    of the document at most, an array that is never closed: [json.load]
    raises JSONDecodeError on it.  The calls of [Io] are the methods with
    that failure; what the caller has changed in memory before the save
    stays changed. *)

(** Bytes A0..BF after ED: the second byte of a surrogate code point. *)
Definition continues_surrogate (s : string) : bool :=
  match s with
  | String c _ => let n := N_of_ascii c in (160 <=? n)%N && (n <=? 191)%N
  | EmptyString => false
  end.

(** The str can be encoded as UTF-8: it holds no surrogate code point. *)
Fixpoint encodable (s : string) : bool :=
  match s with
  | EmptyString => true
  | String c rest =>
      negb ((N_of_ascii c =? 237)%N && continues_surrogate rest)
      && encodable rest
  end.

(** [json.dump] of the value to a UTF-8 file completes. *)
Fixpoint dumps (v : value) : bool :=
  match v with
  | VStr s => encodable s
  | VList items => forallb dumps items
  | VDict entries =>
      forallb (fun kv : string * value =>
                 let (k, x) := kv in encodable k && dumps x) entries
  | VNone | VBool _ | VInt _ => true
  end.

(** What a call leaves behind: a result or an exception, and the state. *)
Inductive outcome (A : Type) : Type :=
| Returned (a : A) (st : State)
| Raised (e : exn) (st : State).

Arguments Returned {A} a st.
Arguments Raised {A} e st.

Definition state_after {A : Type} (o : outcome A) : State :=
  match o with
  | Returned _ st => st
  | Raised _ st => st
  end.

(** The state after a save that [json.dump] has abandoned. *)
Definition torn (st : State) : State :=
  {| books := books st; file := BadJson; saves := S (saves st) |}.

Module Io.

(** [Library.save_books] *)
Definition save_books (st : State) : outcome unit :=
  if dumps (_books_to_dict (books st))
  then Returned tt (save_books st)
  else Raised UnicodeEncodeError (torn st).

(** [Library.add_book] *)
Definition add_book (title author : string) (year : Z) (st : State)
  : outcome Z :=
  match next_id (books st) with
  | Raise e => Raised e st
  | Ok new_id =>
      let new_book :=
        Book_init (VStr title) (VStr author) (VInt year) (VInt new_id) in
      let st := set_books st (books st ++ [new_book]) in
      match save_books st with
      | Returned _ st => Returned new_id st
      | Raised e st => Raised e st
      end
  end.

(** [Library.remove_book] *)
Definition remove_book (book_id : Z) (st : State) : outcome bool :=
  let initial_length := List.length (books st) in
  let st :=
    set_books st
      (filter (fun book => negb (eq_int (id book) book_id)) (books st)) in
  if (List.length (books st) <? initial_length)%nat
  then match save_books st with
       | Returned _ st => Returned true st
       | Raised e st => Raised e st
       end
  else Returned false st.

(** [Library.change_book_status] *)
Definition change_book_status (book_id : Z) (new_status : string) (st : State)
  : outcome bool :=
  match assign_status book_id new_status (books st) with
  | Some bs =>
      match save_books (set_books st bs) with
      | Returned _ st => Returned true st
      | Raised e st => Raised e st
      end
  | None => Returned false st
  end.

End Io.

(** One mutating call, however it ends. *)
Inductive io_step : State -> State -> Prop :=
| io_add title author year st :
    io_step st (state_after (Io.add_book title author year st))
| io_remove book_id st :
    io_step st (state_after (Io.remove_book book_id st))
| io_change book_id new_status st :
    io_step st (state_after (Io.change_book_status book_id new_status st)).

(** The states a program started on the backing file [f] can be in, saves
    that fail included. *)
Inductive io_reachable (f : file_state) : State -> Prop :=
| io_reach_init st : Library_init f = Ok st -> io_reachable f st
| io_reach_step st st' : io_reachable f st -> io_step st st' -> io_reachable f st'.

(** [except ValueError] catches the exception. *)
Definition is_value_error (e : exn) : bool :=
  match e with
  | UnicodeEncodeError | UnicodeDecodeError => true
  | TypeError | KeyError _ | AttributeError => false
  end.

(** ** The menu loop

    [main] talks to the user through [input] and [print].  The lines the
    user will type are a list; [input] takes the first and raises EOFError
    when none is left.  What the program writes is a list of events: the
    lines it prints and the prompts of [input]. *)

Inductive event : Type :=
| Printed (line : string)
| Prompted (prompt : string).

(** How the loop ends: by [break], by EOFError from [input], or by an
    exception of the library that [except ValueError] does not catch. *)
Inductive ending : Type :=
| Exited
| EndOfInput
| Uncaught (e : exn).

Record run : Type := mkRun {
  shown : list event;
  how : ending;
  final : State
}.

Definition stop (e : ending) (library : State) : run :=
  {| shown := []; how := e; final := library |}.

(** The events [evs] happen, then the run [r]. *)
Definition after (evs : list event) (r : run) : run :=
  {| shown := evs ++ shown r; how := how r; final := final r |}.

Definition menu : list event :=
  [Printed (String "010" "--- Система управления библиотекой ---");
   Printed "1. Добавить книгу";
   Printed "2. Удалить книгу";
   Printed "3. Найти книгу";
   Printed "4. Показать все книги";
   Printed "5. Изменить статус книги";
   Printed "6. Выйти"].

Definition invalid_data : event :=
  Printed "Введены некорректные данные. Попробуйте снова.".

Section Shell.

(** [str.lower], [repr] on lists and dicts, and [int] on a str: the integer
    it denotes, or [None] where Python raises ValueError. *)
Variable lower : string -> string.
Variable repr : value -> string.
Variable int_of : string -> option Z.

(** The line printed for one book. *)
Definition book_line (book : Book) : string :=
  ("ID: " ++ str repr (id book)
   ++ ", Название: " ++ str repr (title book)
   ++ ", Автор: " ++ str repr (author book)
   ++ ", Год: " ++ str repr (year book)
   ++ ", Статус: " ++ str repr (status book))%string.

(** [for book in books: print(...)] on a UTF-8 console: the lines printed,
    and whether the loop came to its end; [print] raises UnicodeEncodeError
    at the first line it cannot encode. *)
Fixpoint print_books (bs : list Book) : list event * bool :=
  match bs with
  | [] => ([], true)
  | book :: rest =>
      if encodable (book_line book)
      then let (evs, done) := print_books rest in
           (Printed (book_line book) :: evs, done)
      else ([], false)
  end.

(** The books are printed, or the one line that stands for none; when
    [print] raises, [except ValueError] prints its line. *)
Definition show_books (none : string) (bs : list Book) : list event :=
  match bs with
  | [] => [Printed none]
  | _ :: _ =>
      let (evs, done) := print_books bs in
      if done then evs else evs ++ [invalid_data]
  end.

(** The [while True] loop of [main], on the lines still to be typed. *)
Fixpoint main_loop (inputs : list string) (library : State) {struct inputs}
  : run :=
  after (menu ++ [Prompted "Выберите действие (1-6): "])
    match inputs with
    | [] => stop EndOfInput library
    | choice :: inputs =>
      if String.eqb choice "1" then
        after [Prompted "Введите название книги: "]
          match inputs with
          | [] => stop EndOfInput library
          | title :: inputs =>
            after [Prompted "Введите автора: "]
              match inputs with
              | [] => stop EndOfInput library
              | author :: inputs =>
                after [Prompted "Введите год издания: "]
                  match inputs with
                  | [] => stop EndOfInput library
                  | year_text :: inputs =>
                    match int_of year_text with
                    | None => after [invalid_data] (main_loop inputs library)
                    | Some year =>
                      match Io.add_book title author year library with
                      | Returned book_id library =>
                        after [Printed ("Книга добавлена с ID: "
                                        ++ str_of_int book_id)%string]
                              (main_loop inputs library)
                      | Raised e library =>
                        if is_value_error e
                        then after [invalid_data] (main_loop inputs library)
                        else stop (Uncaught e) library
                      end
                    end
                  end
              end
          end
      else if String.eqb choice "2" then
        after [Prompted "Введите ID книги для удаления: "]
          match inputs with
          | [] => stop EndOfInput library
          | id_text :: inputs =>
            match int_of id_text with
            | None => after [invalid_data] (main_loop inputs library)
            | Some book_id =>
              match Io.remove_book book_id library with
              | Returned removed library =>
                after [Printed (if removed then "Книга успешно удалена"
                                else "Книга не найдена")]
                      (main_loop inputs library)
              | Raised e library =>
                if is_value_error e
                then after [invalid_data] (main_loop inputs library)
                else stop (Uncaught e) library
              end
            end
          end
      else if String.eqb choice "3" then
        after [Prompted "Введите строку для поиска: "]
          match inputs with
          | [] => stop EndOfInput library
          | query :: inputs =>
            match search_books lower repr query library with
            | Ok results =>
              after (show_books "Книги не найдены" results)
                    (main_loop inputs library)
            | Raise e =>
              if is_value_error e
              then after [invalid_data] (main_loop inputs library)
              else stop (Uncaught e) library
            end
          end
      else if String.eqb choice "4" then
        after (show_books "Библиотека пуста" (get_all_books library))
              (main_loop inputs library)
      else if String.eqb choice "5" then
        after [Prompted "Введите ID книги: "]
          match inputs with
          | [] => stop EndOfInput library
          | id_text :: inputs =>
            match int_of id_text with
            | None => after [invalid_data] (main_loop inputs library)
            | Some book_id =>
              after [Prompted "Введите новый статус (в наличии/выдана): "]
                match inputs with
                | [] => stop EndOfInput library
                | new_status :: inputs =>
                  match Io.change_book_status book_id new_status library with
                  | Returned changed library =>
                    after [Printed (if changed then "Статус книги изменен"
                                    else "Не удалось изменить статус")]
                          (main_loop inputs library)
                  | Raised e library =>
                    if is_value_error e
                    then after [invalid_data] (main_loop inputs library)
                    else stop (Uncaught e) library
                  end
                end
            end
          end
      else if String.eqb choice "6" then
        stop Exited library
      else
        after [Printed "Неверный выбор. Попробуйте снова."]
              (main_loop inputs library)
    end.

(** [main], on a disk whose backing file is [f]: an exception of the
    constructor ends the program before the loop. *)
Definition main (f : file_state) (inputs : list string) : result run :=
  library <- Library_init f ;;
  Ok (main_loop inputs library).

End Shell.

(** A book on which neither [add_book] nor [search_books] can raise: the id
    is a number, title and author are text. *)
Definition sound_book (book : Book) : bool :=
  numeric_id book && has_texts book.

(** [int] on plain decimal writing, for runs: digits only. *)
Definition digits_to_int (s : string) : option Z :=
  match NilEmpty.uint_of_string s with
  | Some d => match s with
              | EmptyString => None
              | String _ _ => Some (Z.of_N (N.of_uint d))
              end
  | None => None
  end.

(** What [matches] answers, False standing in where it raises. *)
Definition keeps (lower : string -> string) (repr : value -> string)
  (query : string) (book : Book) : bool :=
  match matches lower repr query book with
  | Ok keep => keep
  | Raise _ => false
  end.

(** A book as the data model has it: integer id and year, text title and
    author, and a status that is one of the two labels. *)
Definition model_book (book : Book) : bool :=
  match id book, title book, author book, year book, status book with
  | VInt _, VStr _, VStr _, VInt _, VStr s => is_status s
  | _, _, _, _, _ => false
  end.

(** ** Notions used in the statements on the file *)

(** [v == n] in words: the value is the integer [n], or the boolean that
    Python counts as [n]. *)
Definition is_id (v : value) (n : Z) : Prop :=
  v = VInt n \/ (v = VBool true /\ n = 1) \/ (v = VBool false /\ n = 0).

(** [kept] is what is left of [bs], in the same order, once the books whose
    id is [n] are taken out. *)
Inductive without (n : Z) : list Book -> list Book -> Prop :=
| without_nil : without n [] []
| without_drop b bs kept :
    is_id (id b) n -> without n bs kept -> without n (b :: bs) kept
| without_keep b bs kept :
    ~ is_id (id b) n -> without n bs kept -> without n (b :: bs) (b :: kept).

(** The file as the format describes it: [json.load] returns, in the order
    of the books, one object per book with its id, title, author, year and
    status. *)
Definition snapshot (bs : list Book) : file_state :=
  Json (VList (map (fun b => VDict [("id", id b); ("title", title b);
                                    ("author", author b); ("year", year b);
                                    ("status", status b)]) bs)).

(** Every str the books hold can be encoded as UTF-8. *)
Definition writable (bs : list Book) : bool :=
  forallb (fun b => dumps (id b) && dumps (title b) && dumps (author b)
                    && dumps (year b) && dumps (status b)) bs.

(** The one-character str U+D800, which [json.load] returns for the escape
    backslash-u-d800 and which UTF-8 cannot encode. *)
Definition lone_surrogate : string :=
  String "237" (String "160" (String "128" EmptyString)).

(** [hay] is some text, then [needle], then some text. *)
Definition substring (needle hay : string) : Prop :=
  exists pre post, hay = String.append pre (String.append needle post).

(** The str is ASCII text. *)
Fixpoint is_ascii (s : string) : bool :=
  match s with
  | EmptyString => true
  | String c rest => (N_of_ascii c <? 128)%N && is_ascii rest
  end.

(** The search criterion in the specification's words, with no reference to
    the code: the title or the author, letter case ignored, has the query,
    letter case ignored, as a substring, or the year written as text is
    the query. *)
Definition asked_for (lower : string -> string) (query : string) (book : Book)
  : Prop :=
  (exists t, title book = VStr t /\ substring (lower query) (lower t)) \/
  (exists a, author book = VStr a /\ substring (lower query) (lower a)) \/
  (exists y, year book = VInt y /\ query = str_of_int y).

(** ** Loading and saving *)

Lemma create_book_to_dict (b : Book) :
  _create_book_from_dict (book_to_dict b) = Ok b.
Proof. destruct b; reflexivity. Qed.

Lemma mapM_create_book_to_dict (bs : list Book) :
  mapM _create_book_from_dict (map book_to_dict bs) = Ok bs.
Proof.
  induction bs as [|b bs IH]; [reflexivity|].
  cbn [map mapM]. rewrite create_book_to_dict, IH. reflexivity.
Qed.

(** C1, as amended: constructing the Store on a missing backing file, or on
    one whose text is not valid JSON ([json.load] raises JSONDecodeError),
    yields the empty record set; nothing is raised and the file is not
    touched.  A file whose bytes are not valid UTF-8 is not recovered from:
    the constructor raises UnicodeDecodeError. *)
Theorem load_missing_or_bad_json :
  Library_init Missing = Ok {| books := []; file := Missing; saves := 0 |} /\
  Library_init BadJson = Ok {| books := []; file := BadJson; saves := 0 |} /\
  Library_init BadUtf8 = Raise UnicodeDecodeError.
Proof. repeat split; reflexivity. Qed.

(** C1 fails as stated: a file that exists and decodes as JSON but whose
    record object lacks the key [title] is not validly structured, and the
    constructor raises KeyError on it. *)
Lemma load_incomplete_record_raises :
  let f := Json (VList [VDict [("id", VInt 1)]]) in
  f <> Missing /\ validly_structured f = false /\
  Library_init f = Raise (KeyError "title") /\
  ~ (exists st, Library_init f = Ok st /\ books st = []).
Proof.
  cbv zeta. repeat split; try reflexivity; try discriminate.
  intros (st & H & _). discriminate H.
Qed.

Lemma init_on_saved_file (st : State) :
  Library_init (file (save_books st)) =
    Ok {| books := books st; file := file (save_books st); saves := 0 |}.
Proof.
  unfold Library_init, load_books, save_books, _books_to_dict, set_books.
  cbn [file books saves iterate bind].
  now rewrite mapM_create_book_to_dict.
Qed.

Lemma dumps_books_to_dict (bs : list Book) :
  dumps (_books_to_dict bs) = writable bs.
Proof.
  unfold _books_to_dict, writable. cbn [dumps].
  induction bs as [|b bs IH]; [reflexivity|].
  cbn [map forallb]. rewrite IH. f_equal.
  unfold book_to_dict. cbn [dumps forallb encodable continues_surrogate].
  cbn. now rewrite !andb_true_r, !andb_assoc.
Qed.

Lemma save_writable (st : State) :
  writable (books st) = true ->
  Io.save_books st =
    Returned tt {| books := books st; file := snapshot (books st);
                   saves := S (saves st) |}.
Proof.
  intros H. unfold Io.save_books. now rewrite dumps_books_to_dict, H.
Qed.

Lemma save_unwritable (st : State) :
  writable (books st) = false ->
  Io.save_books st = Raised UnicodeEncodeError (torn st).
Proof.
  intros H. unfold Io.save_books. now rewrite dumps_books_to_dict, H.
Qed.

Lemma init_on_snapshot (bs : list Book) :
  Library_init (snapshot bs) =
    Ok {| books := bs; file := snapshot bs; saves := 0 |}.
Proof.
  exact (init_on_saved_file {| books := bs; file := Missing; saves := 0 |}).
Qed.

(** C5, as amended: for every catalogue whose texts can all be encoded as
    UTF-8, [save_books] completes, the file holds one object per book, in
    order, with its id, title, author, year and status, and loading it
    gives the same books in the same order.  ([json.load] is taken to
    return the document [json.dump] wrote.)  For every other catalogue
    [save_books] raises UnicodeEncodeError, the books in memory are kept,
    and loading the file it leaves gives no book. *)
Theorem save_load_roundtrip (st : State) :
  if writable (books st)
  then exists st',
         Io.save_books st = Returned tt st' /\
         books st' = books st /\
         file st' = snapshot (books st) /\
         Library_init (file st') =
           Ok {| books := books st; file := file st'; saves := 0 |}
  else exists st',
         Io.save_books st = Raised UnicodeEncodeError st' /\
         books st' = books st /\
         Library_init (file st') =
           Ok {| books := []; file := file st'; saves := 0 |}.
Proof.
  destruct (writable (books st)) eqn:H.
  - eexists. split; [apply (save_writable st H)|].
    cbn [books file]. repeat split. apply init_on_snapshot.
  - eexists. split; [apply (save_unwritable st H)|].
    cbn [torn books file]. split; reflexivity.
Qed.

(** C5 fails as stated: a catalogue can hold a title that UTF-8 cannot
    encode, as the one loaded from a file with the escape for U+D800.  On
    it [save_books] raises, the file is left undecodable, and loading it
    gives no book. *)
Lemma save_unencodable_title_loses_books :
  let record := VDict [("id", VInt 1); ("title", VStr lone_surrogate);
                       ("author", VStr "Herbert"); ("year", VInt 1965);
                       ("status", VStr available)] in
  exists st st',
    Library_init (Json (VList [record])) = Ok st /\
    List.length (books st) = 1%nat /\
    Io.save_books st = Raised UnicodeEncodeError st' /\
    Library_init (file st') =
      Ok {| books := []; file := file st'; saves := 0 |}.
Proof. cbv zeta. do 2 eexists. repeat split. Qed.

Lemma save_load_roundtrip_witness :
  let st := {| books := [Book_init (VStr "Дюна") (VStr "Herbert")
                                   (VInt 1965) (VInt 1)];
               file := Missing; saves := 0 |} in
  let odd := {| books := [Book_init (VStr lone_surrogate) (VStr "Herbert")
                                    (VInt 1965) (VInt 1)];
                file := Missing; saves := 0 |} in
  (exists st',
     Io.save_books st = Returned tt st' /\
     books st' = books st /\
     file st' = snapshot (books st) /\
     Library_init (file st') =
       Ok {| books := books st; file := file st'; saves := 0 |}) /\
  (exists st',
     Io.save_books odd = Raised UnicodeEncodeError st' /\
     books st' = books odd /\
     Library_init (file st') =
       Ok {| books := []; file := file st'; saves := 0 |}).
Proof.
  intros st odd. split;
    [exact (save_load_roundtrip st)|exact (save_load_roundtrip odd)].
Defined.

(** ** Removing *)

Lemma existsb_pointwise {A : Type} (p q : A -> bool) (l : list A) :
  (forall a, p a = q a) -> existsb p l = existsb q l.
Proof.
  intros H. induction l as [|a l IH]; [reflexivity|].
  cbn [existsb]. now rewrite H, IH.
Qed.

Lemma filter_shorter {A : Type} (p : A -> bool) (l : list A) :
  (List.length (filter p l) <? List.length l)%nat = existsb (fun a => negb (p a)) l.
Proof.
  induction l as [|a l IH]; [reflexivity|].
  pose proof (filter_length_le p l) as Hle.
  cbn [filter existsb List.length]. destruct (p a); cbn [negb orb List.length].
  - exact IH.
  - apply Nat.ltb_lt. lia.
Qed.

Lemma filter_keeps_all {A : Type} (p : A -> bool) (l : list A) :
  existsb (fun a => negb (p a)) l = false -> filter p l = l.
Proof.
  induction l as [|a l IH]; [reflexivity|].
  cbn [filter existsb]. destruct (p a); cbn [negb orb]; [|discriminate].
  intros H. now rewrite IH.
Qed.

Lemma eq_int_is_id (v : value) (n : Z) : eq_int v n = true <-> is_id v n.
Proof.
  unfold is_id. destruct v as [|[|]|z| | |]; cbn [eq_int Z.b2z];
    rewrite ?Z.eqb_eq; split;
    try discriminate;
    try (intros [H|[[H _]|[H _]]]; discriminate H).
  - intros <-. right; left. now split.
  - intros [H|[[_ H]|[H _]]]; [discriminate H|now rewrite H|discriminate H].
  - intros <-. right; right. now split.
  - intros [H|[[H _]|[_ H]]]; [discriminate H|discriminate H|now rewrite H].
  - intros ->. now left.
  - intros [H|[[H _]|[H _]]]; [now injection H|discriminate H|discriminate H].
Qed.

Lemma existsb_has_id (n : Z) (bs : list Book) :
  existsb (has_id n) bs = true <-> exists b, In b bs /\ is_id (id b) n.
Proof.
  rewrite existsb_exists. split; intros (b & Hb & H); exists b; split; auto;
    now apply eq_int_is_id.
Qed.

Lemma no_has_id (n : Z) (bs : list Book) :
  existsb (has_id n) bs = false <-> forall b, In b bs -> ~ is_id (id b) n.
Proof.
  split.
  - intros H b Hb Hid. assert (E : existsb (has_id n) bs = true)
      by (apply existsb_has_id; now exists b).
    rewrite E in H. discriminate H.
  - intros H. destruct (existsb (has_id n) bs) eqn:E; [|reflexivity].
    apply existsb_has_id in E. destruct E as (b & Hb & Hid).
    now destruct (H b Hb).
Qed.

Lemma filter_without (n : Z) (bs : list Book) :
  without n bs (filter (fun b => negb (eq_int (id b) n)) bs).
Proof.
  induction bs as [|b bs IH]; cbn [filter]; [constructor|].
  destruct (eq_int (id b) n) eqn:E; cbn [negb].
  - apply without_drop; [now apply eq_int_is_id|exact IH].
  - apply without_keep; [|exact IH].
    intros H. apply eq_int_is_id in H. rewrite H in E. discriminate E.
Qed.

(** C6, as amended: when some book has the id, [remove_book] takes the
    books of that id out of the list, the others staying in the same order,
    and saves: if every text of the books left can be encoded as UTF-8, the
    file, saved once, holds one object per book left and the call returns
    True; if not, the call raises UnicodeEncodeError and leaves the file
    undecodable.  When no book has the id, it returns False and the books,
    the file and the number of saves are what they were. *)
Theorem remove_book_spec (book_id : Z) (st : State) :
  exists kept,
    without book_id (books st) kept /\
    (((exists b, In b (books st) /\ is_id (id b) book_id) /\
      Io.remove_book book_id st =
        if writable kept
        then Returned true {| books := kept; file := snapshot kept;
                              saves := S (saves st) |}
        else Raised UnicodeEncodeError
                    {| books := kept; file := BadJson; saves := S (saves st) |})
     \/
     ((forall b, In b (books st) -> ~ is_id (id b) book_id) /\
      Io.remove_book book_id st = Returned false st)).
Proof.
  exists (filter (fun b => negb (eq_int (id b) book_id)) (books st)).
  split; [apply filter_without|].
  unfold Io.remove_book. cbn [books set_books]. rewrite filter_shorter.
  rewrite (existsb_pointwise _ (has_id book_id))
    by (intros b; apply negb_involutive).
  destruct (existsb (has_id book_id) (books st)) eqn:Hex.
  - left. split; [now apply existsb_has_id|].
    destruct (writable _) eqn:Hw.
    + rewrite save_writable by exact Hw. reflexivity.
    + rewrite save_unwritable by exact Hw. reflexivity.
  - right. split; [now apply no_has_id|].
    rewrite filter_keeps_all; [now destruct st|].
    rewrite <- Hex. apply existsb_pointwise. intros b. apply negb_involutive.
Qed.

(** C6 fails as stated: a store can hold a title that UTF-8 cannot encode,
    as the one loaded from a file with the escape for U+D800.  Removing
    another book, which is there, then neither returns True nor saves the
    new list: the book is gone from memory, the save raises, and the file
    is left undecodable. *)
Lemma remove_with_unencodable_title_raises :
  let odd := VDict [("id", VInt 1); ("title", VStr lone_surrogate);
                    ("author", VStr "Herbert"); ("year", VInt 1965);
                    ("status", VStr available)] in
  let dune := VDict [("id", VInt 2); ("title", VStr "Dune");
                     ("author", VStr "Herbert"); ("year", VInt 1965);
                     ("status", VStr available)] in
  exists st kept,
    Library_init (Json (VList [odd; dune])) = Ok st /\
    (exists b, In b (books st) /\ is_id (id b) 2) /\
    without 2 (books st) kept /\
    Io.remove_book 2 st =
      Raised UnicodeEncodeError
             {| books := kept; file := BadJson; saves := 1 |} /\
    BadJson <> snapshot kept.
Proof.
  cbv zeta. do 2 eexists. split; [reflexivity|]. split.
  { eexists. split; [right; left; reflexivity|]. now left. }
  split.
  { apply without_keep; [|apply without_drop; [now left|apply without_nil]].
    intros [H|[[H _]|[H _]]]; discriminate H. }
  split; [reflexivity|discriminate].
Qed.

Lemma remove_book_spec_witness :
  let dune := Book_init (VStr "Dune") (VStr "Herbert") (VInt 1965) (VInt 1) in
  let solaris := Book_init (VStr "Solaris") (VStr "Lem") (VInt 1961) (VInt 2) in
  let st := {| books := [dune; solaris]; file := Missing; saves := 0 |} in
  Io.remove_book 1 st =
    Returned true {| books := [solaris]; file := snapshot [solaris];
                     saves := 1 |} /\
  Io.remove_book 3 st = Returned false st /\
  exists kept,
    without 1 (books st) kept /\
    (((exists b, In b (books st) /\ is_id (id b) 1) /\
      Io.remove_book 1 st =
        if writable kept
        then Returned true {| books := kept; file := snapshot kept;
                              saves := S (saves st) |}
        else Raised UnicodeEncodeError
                    {| books := kept; file := BadJson; saves := S (saves st) |})
     \/
     ((forall b, In b (books st) -> ~ is_id (id b) 1) /\
      Io.remove_book 1 st = Returned false st)).
Proof.
  intros dune solaris st. split; [reflexivity|]. split; [reflexivity|].
  exact (remove_book_spec 1 st).
Defined.

(** ** Changing the status *)

Lemma is_status_iff (s : string) :
  is_status s = true <-> s = available \/ s = checked_out.
Proof.
  unfold is_status. cbn [existsb]. rewrite orb_false_r, orb_true_iff.
  now rewrite !String.eqb_eq.
Qed.

Lemma assign_status_rejected (book_id : Z) (s : string) (bs : list Book) :
  existsb (has_id book_id) bs && is_status s = false ->
  assign_status book_id s bs = None.
Proof.
  induction bs as [|b bs IH]; [reflexivity|].
  cbn [existsb assign_status]. unfold has_id at 1.
  destruct (eq_int (id b) book_id); cbn [orb andb].
  - intros Hs. rewrite Hs in *.
    rewrite IH by apply andb_false_r. reflexivity.
  - intros H. now rewrite IH.
Qed.

Lemma assign_status_found (book_id : Z) (s : string) (bs : list Book) :
  existsb (has_id book_id) bs && is_status s = true ->
  exists before book after,
    bs = before ++ book :: after /\
    existsb (has_id book_id) before = false /\
    has_id book_id book = true /\
    assign_status book_id s bs =
      Some (before ++ set_status book (VStr s) :: after).
Proof.
  rewrite andb_true_iff. intros [Hex Hs].
  induction bs as [|b bs IH]; [discriminate|].
  cbn [existsb assign_status] in *. rewrite Hs.
  destruct (has_id book_id b) eqn:Hb; unfold has_id in Hb; rewrite Hb.
  - exists [], b, bs. repeat split; assumption.
  - cbn [orb] in Hex. destruct (IH Hex) as (before & book & after & -> & Hn & Hy & ->).
    exists (b :: before), book, after. cbn [existsb app option_map].
    unfold has_id at 1. rewrite Hb. repeat split; assumption.
Qed.

Lemma writable_app (bs1 bs2 : list Book) :
  writable (bs1 ++ bs2) = writable bs1 && writable bs2.
Proof. unfold writable. apply forallb_app. Qed.

(** C4, as amended: when some book has the id and the new status is one of
    the two labels, [change_book_status] sets the status of the first such
    book to the new status, every other field and every other book staying
    as before, and saves: if every text of the books can be encoded as
    UTF-8, the file, saved once, holds one object per book and the call
    returns True; if not, the call raises UnicodeEncodeError and leaves the
    file undecodable.  In every other case it returns False and the books,
    the file and the number of saves are what they were. *)
Theorem change_book_status_spec (book_id : Z) (new_status : string) (st : State) :
  (exists before book after,
      books st = before ++ book :: after /\
      (forall b, In b before -> ~ is_id (id b) book_id) /\
      is_id (id book) book_id /\
      (new_status = available \/ new_status = checked_out) /\
      let updated :=
        before ++ {| id := id book; title := title book;
                     author := author book; year := year book;
                     status := VStr new_status |} :: after in
      Io.change_book_status book_id new_status st =
        if writable updated
        then Returned true {| books := updated; file := snapshot updated;
                              saves := S (saves st) |}
        else Raised UnicodeEncodeError
                    {| books := updated; file := BadJson;
                       saves := S (saves st) |})
  \/
  (((forall b, In b (books st) -> ~ is_id (id b) book_id) \/
    (new_status <> available /\ new_status <> checked_out)) /\
   Io.change_book_status book_id new_status st = Returned false st).
Proof.
  unfold Io.change_book_status.
  destruct (existsb (has_id book_id) (books st) && is_status new_status) eqn:H.
  - left. destruct (assign_status_found _ _ _ H)
      as (before & book & after & E & Hn & Hy & ->).
    apply andb_true_iff in H. destruct H as [_ Hs].
    exists before, book, after.
    split; [exact E|]. split; [now apply no_has_id|].
    split; [now apply eq_int_is_id|]. split; [now apply is_status_iff|].
    cbv zeta. unfold set_status.
    destruct (writable _) eqn:Hw.
    + rewrite save_writable by exact Hw. reflexivity.
    + rewrite save_unwritable by exact Hw. reflexivity.
  - right. rewrite (assign_status_rejected _ _ _ H). split; [|reflexivity].
    apply andb_false_iff in H. destruct H as [H|H].
    + left. now apply no_has_id.
    + right. split; intros ->; discriminate H.
Qed.

(** C4 fails as stated: a store can hold a title that UTF-8 cannot encode,
    as the one loaded from a file with the escape for U+D800.  A change of
    status with the id of that book and a valid status then neither returns
    True nor leaves things as they were: the status is changed in memory,
    the save raises, and the file is left undecodable. *)
Lemma change_with_unencodable_title_raises :
  let odd := VDict [("id", VInt 1); ("title", VStr lone_surrogate);
                    ("author", VStr "Herbert"); ("year", VInt 1965);
                    ("status", VStr available)] in
  exists st,
    Library_init (Json (VList [odd])) = Ok st /\
    (exists b, In b (books st) /\ is_id (id b) 1) /\
    Io.change_book_status 1 checked_out st =
      Raised UnicodeEncodeError
             {| books := [{| id := VInt 1; title := VStr lone_surrogate;
                             author := VStr "Herbert"; year := VInt 1965;
                             status := VStr checked_out |}];
                file := BadJson; saves := 1 |} /\
    map status (books st) = [VStr available].
Proof.
  cbv zeta. eexists. split; [reflexivity|]. split.
  { eexists. split; [left; reflexivity|]. now left. }
  split; reflexivity.
Qed.

Lemma change_book_status_spec_witness :
  let dune := Book_init (VStr "Дюна") (VStr "Herbert") (VInt 1965) (VInt 1) in
  let st := {| books := [dune]; file := Missing; saves := 0 |} in
  Io.change_book_status 1 checked_out st =
    Returned true
      {| books := [{| id := VInt 1; title := VStr "Дюна";
                      author := VStr "Herbert"; year := VInt 1965;
                      status := VStr checked_out |}];
         file := snapshot [{| id := VInt 1; title := VStr "Дюна";
                              author := VStr "Herbert"; year := VInt 1965;
                              status := VStr checked_out |}];
         saves := 1 |} /\
  Io.change_book_status 1 "lost" st = Returned false st /\
  ((exists before book after,
       books st = before ++ book :: after /\
       (forall b, In b before -> ~ is_id (id b) 1) /\
       is_id (id book) 1 /\
       (checked_out = available \/ checked_out = checked_out) /\
       let updated :=
         before ++ {| id := id book; title := title book;
                      author := author book; year := year book;
                      status := VStr checked_out |} :: after in
       Io.change_book_status 1 checked_out st =
         if writable updated
         then Returned true {| books := updated; file := snapshot updated;
                               saves := S (saves st) |}
         else Raised UnicodeEncodeError
                     {| books := updated; file := BadJson;
                        saves := S (saves st) |})
   \/
   (((forall b, In b (books st) -> ~ is_id (id b) 1) \/
     (checked_out <> available /\ checked_out <> checked_out)) /\
    Io.change_book_status 1 checked_out st = Returned false st)).
Proof.
  intros dune st. split; [reflexivity|]. split; [reflexivity|].
  exact (change_book_status_spec 1 checked_out st).
Defined.

(** ** Adding *)

Lemma numbers_ints (ns : list Z) : numbers (map VInt ns) = Some ns.
Proof.
  induction ns as [|n ns IH]; [reflexivity|].
  cbn [map numbers as_number]. now rewrite IH.
Qed.

Lemma fold_max_bounds (rest : list Z) (n : Z) :
  let m := fold_left Z.max rest n in
  In m (n :: rest) /\ forall k, In k (n :: rest) -> k <= m.
Proof.
  revert n. induction rest as [|r rest IH]; intros n; cbn [fold_left].
  - split; [now left|]. intros k [<-|[]]. lia.
  - destruct (IH (Z.max n r)) as [Hin Hle]. split.
    + destruct Hin as [E|Hin]; [|now right; right].
      rewrite <- E. destruct (Z.max_spec n r) as [[_ ->]|[_ ->]];
        [right; now left|now left].
    + pose proof (Hle (Z.max n r) (or_introl eq_refl)) as Hm.
      intros k [E|[E|Hk]]; [lia|lia|].
      apply Hle. now right.
Qed.

Lemma maximum_spec (ns : list Z) :
  (ns = [] -> maximum 0 ns = 0) /\
  (ns <> [] -> In (maximum 0 ns) ns /\ forall n, In n ns -> n <= maximum 0 ns).
Proof.
  split; [now intros ->|]. destruct ns as [|n rest]; [congruence|].
  intros _. apply fold_max_bounds.
Qed.


Lemma add_book_int_ids (title author : string) (year : Z) (st : State)
  (ns : list Z) :
  int_ids (books st) ns ->
  exists st',
    add_book title author year st = Ok (maximum 0 ns + 1, st') /\
    int_ids (books st') (ns ++ [maximum 0 ns + 1]).
Proof.
  unfold int_ids, add_book, next_id. intros H. rewrite H, numbers_ints.
  cbn [bind]. eexists. split; [reflexivity|].
  cbn [save_books set_books books]. rewrite !map_app, H. reflexivity.
Qed.






(** ** Ids over time *)

(** C10: ids are not unique over time.  Starting on a missing file, two
    books are added and get ids 1 and 2; the book with id 2, the largest, is
    removed; the next book added gets id 2 again. *)
Theorem removed_id_is_reused :
  exists st0 st1 st2 st3 st4,
    Library_init Missing = Ok st0 /\
    add_book "Dune" "Herbert" 1965 st0 = Ok (1, st1) /\
    add_book "Foundation" "Asimov" 1951 st1 = Ok (2, st2) /\
    remove_book 2 st2 = (true, st3) /\
    existsb (has_id 2) (books st3) = false /\
    add_book "Solaris" "Lem" 1961 st3 = Ok (2, st4).
Proof. repeat eexists. Qed.

(** ** Searching *)

Lemma contains_empty (hay : string) : contains "" hay = true.
Proof. destruct hay; reflexivity. Qed.

Lemma filterM_pure {A : Type} (f : A -> result bool) (p : A -> bool) (l : list A) :
  (forall a, In a l -> f a = Ok (p a)) -> filterM f l = Ok (filter p l).
Proof.
  induction l as [|a l IH]; intros H; [reflexivity|].
  cbn [filterM filter]. rewrite (H a (or_introl eq_refl)). cbn [bind].
  rewrite IH by (intros b Hb; apply H; now right). reflexivity.
Qed.

Lemma filter_all {A : Type} (p : A -> bool) (l : list A) :
  (forall a, In a l -> p a = true) -> filter p l = l.
Proof.
  induction l as [|a l IH]; intros H; [reflexivity|].
  cbn [filter]. rewrite (H a (or_introl eq_refl)).
  rewrite IH by (intros b Hb; apply H; now right). reflexivity.
Qed.

Lemma filter_none {A : Type} (p : A -> bool) (l : list A) :
  existsb p l = false -> filter p l = [].
Proof.
  induction l as [|a l IH]; [reflexivity|].
  cbn [existsb filter]. destruct (p a); [discriminate|exact IH].
Qed.

Lemma prefix_iff_append (needle hay : string) :
  String.prefix needle hay = true <->
  exists post, hay = String.append needle post.
Proof.
  revert hay. induction needle as [|c needle IH]; intros hay.
  - split; [intros _; now exists hay|intros _; now destruct hay].
  - destruct hay as [|d hay]; cbn [String.prefix String.append].
    + split; [discriminate|intros [post H]; discriminate H].
    + destruct (ascii_dec c d) as [->|Hcd].
      * rewrite IH. split; intros [post H]; exists post.
        -- now rewrite H.
        -- now injection H.
      * split; [discriminate|]. intros [post H]. injection H as H _. congruence.
Qed.

Lemma contains_substring (needle hay : string) :
  contains needle hay = true <-> substring needle hay.
Proof.
  unfold substring.
  induction hay as [|c hay IH]; cbn [contains]; rewrite orb_true_iff.
  - rewrite prefix_iff_append. split.
    + intros [[post H]|H]; [|discriminate]. now exists EmptyString, post.
    + intros (pre & post & H). left. exists post.
      destruct pre; [exact H|discriminate H].
  - rewrite prefix_iff_append, IH. split.
    + intros [[post H]|(pre & post & H)].
      * now exists EmptyString, post.
      * exists (String c pre), post. cbn [String.append]. now rewrite H.
    + intros (pre & post & H). destruct pre as [|d pre]; cbn [String.append] in H.
      * left. now exists post.
      * right. injection H as _ H. now exists pre, post.
Qed.

Section SearchProperties.

Variable lower : string -> string.
Variable repr : value -> string.

(** What the proofs use of [str.lower]: it maps the empty string to
    itself, and it neither changes nor produces the decimal writing of an
    integer. *)
Hypothesis lower_empty : lower "" = "".
Hypothesis lower_year :
  forall q n, lower q = str_of_int n <-> q = str_of_int n.

(** On ASCII text [str.lower] sends A-Z to a-z and leaves the rest. *)
Hypothesis lower_ascii_text :
  forall s, is_ascii s = true -> lower s = ascii_lower s.

Lemma eqb_lower_year (q : string) (n : Z) :
  String.eqb (lower q) (str_of_int n) = String.eqb q (str_of_int n).
Proof.
  destruct (String.eqb_spec q (str_of_int n)) as [E|E].
  - apply String.eqb_eq. now apply lower_year.
  - apply String.eqb_neq. intros H. apply E. now apply lower_year.
Qed.

Lemma matches_typed (query : string) (b : Book) :
  typed b = true ->
  matches lower repr (lower query) b = Ok (wanted lower query b).
Proof.
  unfold typed, matches, wanted, lower_of.
  destruct (title b) as [| | |t| |]; try discriminate.
  destruct (author b) as [| | |a| |]; try discriminate.
  destruct (year b) as [| |y| | |]; try discriminate.
  intros _. cbn [bind str]. rewrite eqb_lower_year.
  destruct (contains (lower query) (lower t)); [reflexivity|].
  destruct (contains (lower query) (lower a)); reflexivity.
Qed.

Lemma matches_empty_query (b : Book) :
  has_text_title b = true -> matches lower repr (lower "") b = Ok true.
Proof.
  unfold has_text_title, matches, lower_of.
  destruct (title b) as [| | |t| |]; try discriminate.
  intros _. cbn [bind]. now rewrite lower_empty, contains_empty.
Qed.

Lemma wanted_asked_for (query : string) (b : Book) :
  typed b = true ->
  wanted lower query b = true <-> asked_for lower query b.
Proof.
  unfold typed, wanted, asked_for.
  destruct (title b) as [| | |t| |]; try discriminate.
  destruct (author b) as [| | |a| |]; try discriminate.
  destruct (year b) as [| |y| | |]; try discriminate.
  intros _. rewrite !orb_true_iff, !contains_substring, String.eqb_eq. split.
  - intros [[H|H]|H].
    + left. now exists t.
    + right; left. now exists a.
    + right; right. now exists y.
  - intros [(t' & E & H)|[(a' & E & H)|(y' & E & H)]]; injection E as <-; auto.
Qed.

(** C3: on books whose title and author are text and whose year is an
    integer, [search_books] never raises and returns, in the order of the
    store, exactly the books asked for: those whose title or author, letter
    case ignored, has the query, letter case ignored, as a substring, and
    those whose year written as text is the query.  The result is empty
    when no book is asked for.  On ASCII text, ignoring letter case is
    taking A-Z for a-z.  The query 2020 asks for every book of year 2020,
    and for a book of year 2021 only through its title or author. *)
Theorem search_books_spec (query : string) (st : State) :
  forallb typed (books st) = true ->
  search_books lower repr query st =
    Ok (filter (wanted lower query) (books st)) /\
  (forall b, In b (books st) ->
             (wanted lower query b = true <-> asked_for lower query b)) /\
  ((forall b, In b (books st) -> ~ asked_for lower query b) ->
   search_books lower repr query st = Ok []) /\
  (forall q t, is_ascii q = true -> is_ascii t = true ->
               (substring (lower q) (lower t) <->
                substring (ascii_lower q) (ascii_lower t))) /\
  (forall b, year b = VInt 2020 -> asked_for lower "2020" b) /\
  (forall b, year b = VInt 2021 -> asked_for lower "2020" b ->
             exists s, (title b = VStr s \/ author b = VStr s) /\
                       substring (lower "2020") (lower s)).
Proof.
  intros Htyped. rewrite forallb_forall in Htyped.
  assert (E : search_books lower repr query st =
              Ok (filter (wanted lower query) (books st))).
  { unfold search_books. apply filterM_pure.
    intros b Hb. apply matches_typed, Htyped, Hb. }
  assert (W : forall b, In b (books st) ->
                        (wanted lower query b = true <-> asked_for lower query b)).
  { intros b Hb. apply wanted_asked_for, Htyped, Hb. }
  split; [exact E|]. split; [exact W|]. split.
  { intros Hnone. rewrite E. f_equal. apply filter_none.
    destruct (existsb (wanted lower query) (books st)) eqn:Hex; [|reflexivity].
    apply existsb_exists in Hex. destruct Hex as (b & Hb & Hw).
    destruct (Hnone b Hb). now apply W. }
  split.
  { intros q t Hq Ht. now rewrite (lower_ascii_text q Hq), (lower_ascii_text t Ht). }
  split.
  - intros b Hy. right; right. now exists 2020.
  - intros b Hy [(t & Et & H)|[(a & Ea & H)|(y & Ey & H)]].
    + exists t. split; [now left|exact H].
    + exists a. split; [now right|exact H].
    + rewrite Hy in Ey. injection Ey as <-. discriminate H.
Qed.

(** C9: on books whose title is text, searching for the empty string
    returns every book of the store. *)
Theorem search_empty_query (st : State) :
  forallb has_text_title (books st) = true ->
  search_books lower repr "" st = Ok (books st).
Proof.
  intros Htext. rewrite forallb_forall in Htext.
  unfold search_books.
  rewrite (filterM_pure _ (fun _ => true)).
  - now rewrite filter_all.
  - intros b Hb. apply matches_empty_query, Htext, Hb.
Qed.

End SearchProperties.

(** *** The ASCII instance of [str.lower] *)

Lemma lower_ascii_plain (c : ascii) : is_plain c = true -> lower_ascii c = c.
Proof.
  unfold is_plain, lower_ascii. cbv zeta.
  destruct ((65 <=? N_of_ascii c)%N && (N_of_ascii c <=? 90)%N) eqn:R;
    [|reflexivity].
  intros H. exfalso.
  apply andb_true_iff in R. destruct R as [R1 R2].
  apply N.leb_le in R1. apply N.leb_le in R2.
  apply orb_true_iff in H. destruct H as [H|H].
  - apply andb_true_iff in H. destruct H as [_ H]. apply N.leb_le in H. lia.
  - apply N.eqb_eq in H. lia.
Qed.

Lemma lower_ascii_to_plain (c d : ascii) :
  is_plain c = true -> lower_ascii d = c -> d = c.
Proof.
  unfold lower_ascii. cbv zeta.
  destruct ((65 <=? N_of_ascii d)%N && (N_of_ascii d <=? 90)%N) eqn:R;
    [|intros _ E; exact E].
  intros H E. exfalso. subst c. unfold is_plain in H. cbv zeta in H.
  apply andb_true_iff in R. destruct R as [R1 R2].
  apply N.leb_le in R1. apply N.leb_le in R2.
  rewrite N_ascii_embedding in H by lia.
  apply orb_true_iff in H. destruct H as [H|H].
  - apply andb_true_iff in H. destruct H as [_ H]. apply N.leb_le in H. lia.
  - apply N.eqb_eq in H. lia.
Qed.

Lemma ascii_lower_plain (s : string) :
  all_plain s = true -> ascii_lower s = s.
Proof.
  induction s as [|c s IH]; [reflexivity|].
  cbn [all_plain ascii_lower]. rewrite andb_true_iff. intros [Hc Hs].
  now rewrite lower_ascii_plain, IH.
Qed.

Lemma ascii_lower_to_plain (t : string) :
  all_plain t = true -> forall q, ascii_lower q = t -> q = t.
Proof.
  induction t as [|c t IH]; intros Ht q E.
  - destruct q; [reflexivity|discriminate].
  - destruct q as [|d q]; [discriminate|].
    cbn [all_plain] in Ht. apply andb_true_iff in Ht. destruct Ht as [Hc Ht].
    cbn [ascii_lower] in E. injection E as Ec Eq.
    now rewrite (lower_ascii_to_plain c d Hc Ec), (IH Ht q Eq).
Qed.

Lemma uint_plain (d : Decimal.uint) :
  all_plain (NilEmpty.string_of_uint d) = true.
Proof. induction d; cbn [NilEmpty.string_of_uint all_plain]; auto. Qed.

Lemma str_of_int_plain (n : Z) : all_plain (str_of_int n) = true.
Proof.
  unfold str_of_int, NilZero.string_of_int, NilZero.string_of_uint.
  destruct (Z.to_int n) as [d|d]; destruct d;
    cbn [all_plain NilEmpty.string_of_uint];
    rewrite ?uint_plain; reflexivity.
Qed.

Lemma ascii_lower_year (q : string) (n : Z) :
  ascii_lower q = str_of_int n <-> q = str_of_int n.
Proof.
  split.
  - apply ascii_lower_to_plain, str_of_int_plain.
  - intros ->. apply ascii_lower_plain, str_of_int_plain.
Qed.

(** [search_books_spec] at work with the ASCII [lower]: of a book of 2020
    and a book of 2021, the query DUNE in capitals returns the first, and
    so does the query 2020. *)
Lemma search_books_spec_witness :
  let dune := Book_init (VStr "Dune") (VStr "Herbert") (VInt 2020) (VInt 1) in
  let foundation :=
    Book_init (VStr "Foundation") (VStr "Asimov") (VInt 2021) (VInt 2) in
  let st := {| books := [dune; foundation]; file := Missing; saves := 0 |} in
  search_books ascii_lower no_repr "DUNE" st = Ok [dune] /\
  search_books ascii_lower no_repr "2020" st = Ok [dune].
Proof.
  intros dune foundation st. split.
  - exact (proj1 (search_books_spec ascii_lower no_repr ascii_lower_year
                    (fun s _ => eq_refl) "DUNE" st eq_refl)).
  - exact (proj1 (search_books_spec ascii_lower no_repr ascii_lower_year
                    (fun s _ => eq_refl) "2020" st eq_refl)).
Defined.

(** [search_empty_query] at work with the ASCII [lower]. *)
Lemma search_empty_query_witness :
  let dune := Book_init (VStr "Dune") (VStr "Herbert") (VInt 1965) (VInt 1) in
  let untitled := Book_init (VStr "") (VNone) (VInt 1951) (VInt 2) in
  search_books ascii_lower no_repr ""
    {| books := [dune; untitled]; file := Missing; saves := 0 |}
  = Ok [dune; untitled].
Proof.
  intros dune untitled.
  exact (search_empty_query ascii_lower no_repr eq_refl
           {| books := [dune; untitled]; file := Missing; saves := 0 |} eq_refl).
Defined.

(** ** Invariants of the reachable states *)

Lemma assign_status_ids (book_id : Z) (s : string) (bs bs' : list Book) :
  assign_status book_id s bs = Some bs' -> map id bs' = map id bs.
Proof.
  revert bs'. induction bs as [|b bs IH]; intros bs'; [discriminate|].
  cbn [assign_status].
  destruct (eq_int (id b) book_id && is_status s) eqn:C.
  - apply andb_true_iff in C. destruct C as [-> ->].
    intros E. injection E as <-. reflexivity.
  - assert (E : (if eq_int (id b) book_id
                 then if is_status s
                      then Some (set_status b (VStr s) :: bs)
                      else option_map (cons b) (assign_status book_id s bs)
                 else option_map (cons b) (assign_status book_id s bs))
                = option_map (cons b) (assign_status book_id s bs)).
    { destruct (eq_int (id b) book_id); [|reflexivity].
      destruct (is_status s); [discriminate|reflexivity]. }
    rewrite E. destruct (assign_status book_id s bs) as [bs0|]; [|discriminate].
    intros H. injection H as <-. cbn [map]. now rewrite (IH bs0).
Qed.

Lemma assign_status_ok (book_id : Z) (s : string) (bs bs' : list Book) :
  assign_status book_id s bs = Some bs' ->
  Forall status_ok bs -> Forall status_ok bs'.
Proof.
  revert bs'. induction bs as [|b bs IH]; intros bs'; [discriminate|].
  cbn [assign_status]. intros E Hall. inversion Hall as [|? ? Hb Hbs]; subst.
  destruct (eq_int (id b) book_id); [destruct (is_status s) eqn:Hs|].
  - injection E as <-. constructor; [|exact Hbs].
    apply is_status_iff in Hs. unfold status_ok. cbn [set_status status].
    destruct Hs as [->| ->]; [now left|now right].
  - destruct (assign_status book_id s bs) as [bs0|]; [|discriminate].
    injection E as <-. constructor; [exact Hb|now apply IH].
  - destruct (assign_status book_id s bs) as [bs0|]; [|discriminate].
    injection E as <-. constructor; [exact Hb|now apply IH].
Qed.

Lemma remove_book_books (book_id : Z) (st : State) :
  books (snd (remove_book book_id st)) =
  filter (fun b => negb (has_id book_id b)) (books st).
Proof.
  unfold remove_book. cbn [books set_books].
  destruct (_ <? _)%nat; reflexivity.
Qed.

Lemma Forall_filter_keeps {A : Type} (P : A -> Prop) (p : A -> bool) (l : list A) :
  Forall P l -> Forall P (filter p l).
Proof.
  rewrite !Forall_forall. intros H a Ha. apply filter_In in Ha. now apply H.
Qed.

Lemma step_status_ok (st st' : State) :
  step st st' -> Forall status_ok (books st) -> Forall status_ok (books st').
Proof.
  intros Hstep Hall. destruct Hstep as [t a y st n st' E|i st|i s st].
  - unfold add_book in E. destruct (next_id (books st)); [|discriminate].
    cbn [bind] in E. injection E as _ <-. cbn [save_books set_books books].
    apply Forall_app. split; [exact Hall|]. constructor; [now left|constructor].
  - rewrite remove_book_books. now apply Forall_filter_keeps.
  - unfold change_book_status.
    destruct (assign_status i s (books st)) as [bs|] eqn:E; [|exact Hall].
    cbn [snd save_books set_books books]. exact (assign_status_ok _ _ _ _ E Hall).
Qed.


Lemma filter_int_ids (book_id : Z) (bs : list Book) :
  forall ns, int_ids bs ns ->
    int_ids (filter (fun b => negb (has_id book_id b)) bs)
            (filter (fun n => negb (n =? book_id)) ns).
Proof.
  unfold int_ids, has_id.
  induction bs as [|b bs IH]; intros [|n ns] E; try discriminate; [reflexivity|].
  cbn [map] in E. injection E as Eb Ebs. cbn [filter]. rewrite Eb.
  cbn [eq_int]. destruct (n =? book_id); cbn [negb map].
  - now apply IH.
  - now rewrite Eb, (IH ns Ebs).
Qed.

Lemma NoDup_snoc_above (ns : list Z) (m : Z) :
  NoDup ns -> (forall n, In n ns -> n < m) -> NoDup (ns ++ [m]).
Proof.
  intros Hnd Hlt. induction Hnd as [|a l Hnotin Hnd IH]; cbn [app].
  - constructor; [intros []|constructor].
  - constructor.
    + rewrite in_app_iff. intros [H|[H|[]]]; [contradiction|].
      specialize (Hlt a (or_introl eq_refl)). lia.
    + apply IH. intros n Hn. apply Hlt. now right.
Qed.

Lemma step_distinct_ids (st st' : State) :
  step st st' -> distinct_ids (books st) -> distinct_ids (books st').
Proof.
  intros Hstep (ns & Hns & Hnd). destruct Hstep as [t a y st n st' E|i st|i s st].
  - destruct (add_book_int_ids t a y st ns Hns) as (st1 & E1 & Hns1).
    rewrite E1 in E. injection E as _ <-.
    exists (ns ++ [maximum 0 ns + 1]). split; [exact Hns1|].
    apply NoDup_snoc_above; [exact Hnd|].
    intros k Hk. destruct (maximum_spec ns) as [_ Hmax].
    destruct Hmax as [_ Hle]; [intros ->; contradiction|].
    specialize (Hle k Hk). lia.
  - rewrite remove_book_books. eexists. split.
    + apply filter_int_ids, Hns.
    + now apply NoDup_filter.
  - unfold change_book_status.
    destruct (assign_status i s (books st)) as [bs|] eqn:E;
      [|exists ns; now split].
    cbn [snd save_books set_books books]. exists ns. split; [|exact Hnd].
    unfold int_ids. now rewrite (assign_status_ids _ _ _ _ E).
Qed.

(** An invariant of the books that holds after construction and is kept by
    every step holds in every reachable state. *)
Lemma reachable_invariant (P : list Book -> Prop) (f : file_state) :
  (forall st0, Library_init f = Ok st0 -> P (books st0)) ->
  (forall st st', step st st' -> P (books st) -> P (books st')) ->
  forall st, reachable f st -> P (books st).
Proof.
  intros Hinit Hstep st Hreach.
  induction Hreach as [st0 E|st st' _ IH Hs]; [now apply Hinit|].
  exact (Hstep st st' Hs IH).
Qed.



Lemma restart_books (st st0 : State) :
  Library_init (file (save_books st)) = Ok st0 -> books st0 = books st.
Proof.
  rewrite init_on_saved_file. intros H. injection H as <-. reflexivity.
Qed.




(** C8, as amended: if the books loaded at construction have pairwise
    distinct integer ids (as on a missing or undecodable file, where none is
    loaded), then so have the books of every state reached by adding,
    removing and changing status, and those of a program started later on a
    file saved from such a state. *)
Theorem ids_stay_distinct (f : file_state) (st : State) :
  (forall st0, Library_init f = Ok st0 -> distinct_ids (books st0)) ->
  reachable f st ->
  distinct_ids (books st) /\
  (forall st', reachable (file (save_books st)) st' -> distinct_ids (books st')).
Proof.
  intros Hinit Hreach.
  assert (Hd : distinct_ids (books st)).
  { apply (reachable_invariant distinct_ids f Hinit step_distinct_ids st Hreach). }
  split; [exact Hd|].
  apply (reachable_invariant distinct_ids); [|exact step_distinct_ids].
  intros st0 E. now rewrite (restart_books st st0 E).
Qed.

(** C8 fails as stated: the ids found in the file are taken as they are.  A
    file with two records of id 1 loads into a store with two books of
    id 1. *)
Lemma loaded_ids_are_not_checked :
  let f := Json (VList [VDict [("id", VInt 1); ("title", VStr "Dune");
                               ("author", VStr "Herbert"); ("year", VInt 1965);
                               ("status", VStr available)];
                        VDict [("id", VInt 1); ("title", VStr "Foundation");
                               ("author", VStr "Asimov"); ("year", VInt 1951);
                               ("status", VStr available)]]) in
  exists st,
    reachable f st /\
    map id (books st) = [VInt 1; VInt 1] /\
    ~ distinct_ids (books st).
Proof.
  cbv zeta. eexists. split; [apply reach_init; reflexivity|].
  split; [reflexivity|].
  intros (ns & Hns & Hnd). unfold int_ids in Hns. cbn in Hns.
  destruct ns as [|a [|b [|c ns]]]; try discriminate Hns.
  injection Hns as <- <-.
  inversion Hnd as [|? ? Hnotin _]. apply Hnotin. now left.
Qed.

(** The hypothesis of [ids_stay_distinct] holds on a missing file; there,
    after two adds and the removal of the first book, the only id is 2. *)
Lemma ids_stay_distinct_witness :
  exists st,
    reachable Missing st /\
    map id (books st) = [VInt 2] /\
    distinct_ids (books st).
Proof.
  pose (st0 := {| books := []; file := Missing; saves := 0 |}).
  destruct (add_book "Dune" "Herbert" 1965 st0) as [[id1 st1]|e] eqn:E1;
    [|discriminate E1].
  destruct (add_book "Foundation" "Asimov" 1951 st1) as [[id2 st2]|e] eqn:E2;
    [|injection E1 as _ <-; discriminate E2].
  pose (st3 := snd (remove_book 1 st2)).
  assert (R : reachable Missing st3).
  { apply reach_step with st2; [|apply step_remove].
    apply reach_step with st1; [|exact (step_add _ _ _ _ _ _ E2)].
    apply reach_step with st0; [apply reach_init; reflexivity|].
    exact (step_add _ _ _ _ _ _ E1). }
  exists st3. split; [exact R|]. split.
  - injection E1 as _ <-. injection E2 as _ <-. reflexivity.
  - refine (proj1 (ids_stay_distinct Missing st3 _ R)).
    intros st E. injection E as <-. exists []. split; [reflexivity|constructor].
Defined.


(** * Further properties of the code *)

(** ** What the constructor accepts *)

(** X1: A record of the file becomes a book exactly when it is an object with
    the five keys: the values are stored as found, whatever their types, and
    any other key is ignored.  Anything but an object raises TypeError, and
    an object raises KeyError for the first key it lacks, in the order
    title, author, year, id, status. *)
Theorem create_book_from_dict_cases (v : value) :
  (exists entries t a y i s,
      v = VDict entries /\
      lookup "title" entries = Some t /\ lookup "author" entries = Some a /\
      lookup "year" entries = Some y /\ lookup "id" entries = Some i /\
      lookup "status" entries = Some s /\
      _create_book_from_dict v =
        Ok {| id := i; title := t; author := a; year := y; status := s |}) \/
  (exists entries before key after,
      v = VDict entries /\
      record_keys = before ++ key :: after /\
      Forall (fun k => lookup k entries <> None) before /\
      lookup key entries = None /\
      _create_book_from_dict v = Raise (KeyError key)) \/
  ((forall entries, v <> VDict entries) /\
   _create_book_from_dict v = Raise TypeError).
Proof.
  destruct v as [| | | | |entries];
    try (right; right; split; [intros ? ?; discriminate|reflexivity]).
  unfold _create_book_from_dict, subscript.
  destruct (lookup "title" entries) as [t|] eqn:Et.
  2:{ right; left. exists entries, [], "title", ["author"; "year"; "id"; "status"].
      repeat split; auto. }
  destruct (lookup "author" entries) as [a|] eqn:Ea.
  2:{ right; left. exists entries, ["title"], "author", ["year"; "id"; "status"].
      repeat split; auto. repeat constructor; congruence. }
  destruct (lookup "year" entries) as [y|] eqn:Ey.
  2:{ right; left. exists entries, ["title"; "author"], "year", ["id"; "status"].
      repeat split; auto. repeat constructor; congruence. }
  destruct (lookup "id" entries) as [i|] eqn:Ei.
  2:{ right; left. exists entries, ["title"; "author"; "year"], "id", ["status"].
      repeat split; auto. repeat constructor; congruence. }
  destruct (lookup "status" entries) as [s|] eqn:Es.
  2:{ right; left. exists entries, ["title"; "author"; "year"; "id"], "status", [].
      repeat split; auto. repeat constructor; congruence. }
  left. exists entries, t, a, y, i, s. repeat split; auto.
Qed.

Lemma mapM_cases {A B : Type} (f : A -> result B) (l : list A) :
  match mapM f l with
  | Ok bs => Forall2 (fun a b => f a = Ok b) l bs
  | Raise e =>
      exists before a after,
        l = before ++ a :: after /\ f a = Raise e /\
        Forall (fun x => exists b, f x = Ok b) before
  end.
Proof.
  induction l as [|a l IH]; cbn [mapM]; [constructor|].
  destruct (f a) as [b|e] eqn:Ea; cbn [bind].
  - destruct (mapM f l) as [bs|e]; cbn [bind].
    + now constructor.
    + destruct IH as (before & x & after & -> & Hx & Hbefore).
      exists (a :: before), x, after. repeat split; auto.
      constructor; [now exists b|exact Hbefore].
  - exists [], a, l. repeat split; auto.
Qed.

(** X2: Loading a JSON array is all or nothing.  Either every element becomes a
    book, in the order of the file, or the constructor raises what the first
    unusable element raises and no book is loaded.  The file is not
    written. *)
Theorem load_array_all_or_nothing (items : list value) :
  match Library_init (Json (VList items)) with
  | Ok st =>
      Forall2 (fun item b => _create_book_from_dict item = Ok b)
              items (books st) /\
      file st = Json (VList items) /\ saves st = 0%nat
  | Raise e =>
      exists before item after,
        items = before ++ item :: after /\
        _create_book_from_dict item = Raise e /\
        Forall (fun x => exists b, _create_book_from_dict x = Ok b) before
  end.
Proof.
  unfold Library_init, load_books. cbn [file iterate bind].
  pose proof (mapM_cases _create_book_from_dict items) as H.
  destruct (mapM _create_book_from_dict items) as [bs|e]; cbn [bind].
  - repeat split. exact H.
  - exact H.
Qed.

Lemma chars_nonempty (c : ascii) (s : string) : chars (String c s) <> [].
Proof.
  cbn [chars]. destruct (chars s); [discriminate|].
  destruct (continues s); discriminate.
Qed.

Lemma mapM_create_strs (ss : list string) :
  ss <> [] -> mapM _create_book_from_dict (map VStr ss) = Raise TypeError.
Proof. destruct ss as [|s ss]; [congruence|reflexivity]. Qed.

(** X3: A JSON document that is not an array: null, a boolean or an integer
    makes the constructor raise TypeError, and so does an object or a string
    unless it is empty, in which case the store starts empty. *)
Theorem load_non_array_document (doc : value) :
  (forall items, doc <> VList items) ->
  Library_init (Json doc) =
    if is_empty_container doc
    then Ok {| books := []; file := Json doc; saves := 0 |}
    else Raise TypeError.
Proof.
  intros Hdoc. unfold Library_init, load_books. cbn [file].
  destruct doc as [| | |s|items|entries]; try reflexivity.
  - destruct s as [|c s]; [reflexivity|].
    cbn [iterate bind is_empty_container].
    rewrite mapM_create_strs; [reflexivity|apply chars_nonempty].
  - now destruct (Hdoc items).
  - destruct entries as [|[k v] entries]; reflexivity.
Qed.

(** [load_non_array_document] on the empty object, and on an object with one
    key. *)
Lemma load_non_array_document_witness :
  Library_init (Json (VDict [])) =
    Ok {| books := []; file := Json (VDict []); saves := 0 |} /\
  Library_init (Json (VDict [("books", VList [])])) = Raise TypeError.
Proof.
  split.
  - apply (load_non_array_document (VDict [])). intros items; discriminate.
  - apply (load_non_array_document (VDict [("books", VList [])])).
    intros items; discriminate.
Defined.

Lemma init_keeps_file (f : file_state) (st : State) :
  Library_init f = Ok st -> file st = f /\ saves st = 0%nat.
Proof.
  unfold Library_init, load_books. cbn [file].
  destruct f as [| | |doc]; try discriminate.
  - intros E. injection E as <-. now split.
  - intros E. injection E as <-. now split.
  - destruct (iterate doc) as [items|]; [|discriminate]. cbn [bind].
    destruct (mapM _create_book_from_dict items); [|discriminate].
    cbn [bind]. intros E. injection E as <-. now split.
Qed.

(** X4: The constructor never writes: when it returns, the file is what it was,
    also when it was unreadable as JSON and the store starts empty. *)
Theorem constructor_does_not_write (f : file_state) (st : State) :
  Library_init f = Ok st -> file st = f /\ saves st = 0%nat.
Proof. apply init_keeps_file. Qed.

Lemma constructor_does_not_write_witness :
  exists st, Library_init BadJson = Ok st /\ file st = BadJson /\ saves st = 0%nat.
Proof.
  eexists. split; [reflexivity|].
  exact (constructor_does_not_write BadJson _ eq_refl).
Defined.

(** ** Adding, removing and changing status *)

Lemma eq_int_as_number (v : value) (k : Z) :
  eq_int v k = match as_number v with Some n => n =? k | None => false end.
Proof. destruct v; reflexivity. Qed.

Lemma numbers_numeric (bs : list Book) :
  if forallb numeric_id bs
  then exists ns, numbers (map id bs) = Some ns /\
                  Forall2 (fun b n => as_number (id b) = Some n) bs ns
  else numbers (map id bs) = None.
Proof.
  induction bs as [|b bs IH]; cbn [forallb map numbers].
  - exists []. split; [reflexivity|constructor].
  - unfold numeric_id at 1. destruct (as_number (id b)) as [n|] eqn:En;
      cbn [andb]; [|reflexivity].
    destruct (forallb numeric_id bs).
    + destruct IH as (ns & -> & Hall). exists (n :: ns).
      split; [reflexivity|now constructor].
    + now rewrite IH.
Qed.

Lemma above_maximum_is_fresh (bs : list Book) (ns : list Z) :
  Forall2 (fun b n => as_number (id b) = Some n) bs ns ->
  existsb (has_id (maximum 0 ns + 1)) bs = false.
Proof.
  intros Hall.
  assert (Hle : forall n, In n ns -> n <= maximum 0 ns).
  { intros n Hn. destruct (maximum_spec ns) as [_ H].
    apply H; [intros ->; contradiction|exact Hn]. }
  revert Hle. generalize (maximum 0 ns). intros m.
  induction Hall as [|b n bs ns Hb _ IH]; intros Hle; [reflexivity|].
  cbn [existsb]. unfold has_id at 1. rewrite eq_int_as_number, Hb.
  replace (n =? m + 1) with false
    by (symmetry; apply Z.eqb_neq; specialize (Hle n (or_introl eq_refl)); lia).
  apply IH. intros k Hk. apply Hle. now right.
Qed.

Lemma add_book_outcome (title author : string) (year : Z) (st : State) :
  if forallb numeric_id (books st)
  then exists new_id,
      add_book title author year st =
        Ok (new_id,
            save_books
              (set_books st
                 (books st ++
                  [{| id := VInt new_id; title := VStr title;
                      author := VStr author; year := VInt year;
                      status := VStr available |}]))) /\
      existsb (has_id new_id) (books st) = false
  else add_book title author year st = Raise TypeError.
Proof.
  unfold add_book, next_id. pose proof (numbers_numeric (books st)) as H.
  destruct (forallb numeric_id (books st)).
  - destruct H as (ns & -> & Hall). cbn [bind].
    exists (maximum 0 ns + 1). split; [reflexivity|].
    now apply above_maximum_is_fresh.
  - now rewrite H.
Qed.

Lemma io_add_book_outcome (title author : string) (year : Z) (st : State) :
  forallb numeric_id (books st) = true ->
  exists new_id,
    existsb (has_id new_id) (books st) = false /\
    let added :=
      books st ++ [{| id := VInt new_id; title := VStr title;
                      author := VStr author; year := VInt year;
                      status := VStr available |}] in
    Io.add_book title author year st =
      if writable added
      then Returned new_id {| books := added; file := snapshot added;
                              saves := S (saves st) |}
      else Raised UnicodeEncodeError
                  {| books := added; file := BadJson; saves := S (saves st) |}.
Proof.
  intros Hnum. pose proof (numbers_numeric (books st)) as H.
  rewrite Hnum in H. destruct H as (ns & Hns & Hall).
  exists (maximum 0 ns + 1). split; [now apply above_maximum_is_fresh|].
  cbv zeta. unfold Io.add_book, next_id. rewrite Hns.
  destruct (writable _) eqn:Hw.
  - rewrite save_writable by exact Hw. reflexivity.
  - rewrite save_unwritable by exact Hw. reflexivity.
Qed.

Lemma io_add_book_type_error (title author : string) (year : Z) (st : State) :
  existsb (fun b => negb (numeric_id b)) (books st) = true ->
  Io.add_book title author year st = Raised TypeError st.
Proof.
  intros Hex. pose proof (numbers_numeric (books st)) as H.
  destruct (forallb numeric_id (books st)) eqn:Hall.
  - apply existsb_exists in Hex. destruct Hex as (b & Hb & Hn).
    rewrite forallb_forall in Hall. rewrite (Hall b Hb) in Hn. discriminate Hn.
  - unfold Io.add_book, next_id. now rewrite H.
Qed.

(** X5: When some id in the store is None, a str, a list or a dict,
    [add_book] raises TypeError and changes nothing.  When every id is an
    int or a bool, it appends one book with the given title, author and
    year, the default status and an id that no book of the store had; then
    it saves and returns that id, or, if some text of the books cannot be
    encoded as UTF-8, it raises UnicodeEncodeError with the book appended
    in memory and the file left undecodable. *)
Theorem add_book_cases (title author : string) (year : Z) (st : State) :
  (existsb no_number (books st) = true ->
   Io.add_book title author year st = Raised TypeError st) /\
  (forallb numeric_id (books st) = true ->
   exists new_id,
     (forall b, In b (books st) -> ~ is_id (id b) new_id) /\
     let added :=
       books st ++ [{| id := VInt new_id; title := VStr title;
                       author := VStr author; year := VInt year;
                       status := VStr available |}] in
     Io.add_book title author year st =
       if writable added
       then Returned new_id {| books := added; file := snapshot added;
                               saves := S (saves st) |}
       else Raised UnicodeEncodeError
                   {| books := added; file := BadJson; saves := S (saves st) |}).
Proof.
  split.
  { intros Hex. apply io_add_book_type_error. rewrite <- Hex.
    apply existsb_pointwise. intros b. unfold numeric_id, no_number.
    now destruct (id b) as [|[|]| | | |]. }
  intros Hnum.
  destruct (io_add_book_outcome title author year st Hnum) as (n & Hfresh & E).
  exists n. split; [now apply no_has_id|exact E].
Qed.

Lemma add_book_cases_witness :
  Io.add_book "Dune" "Herbert" 1965
    {| books := [Book_init (VStr "Solaris") (VStr "Lem") (VInt 1961) VNone];
       file := Missing; saves := 0 |}
  = Raised TypeError
      {| books := [Book_init (VStr "Solaris") (VStr "Lem") (VInt 1961) VNone];
         file := Missing; saves := 0 |} /\
  exists new_id,
    Io.add_book lone_surrogate "Herbert" 1965
      {| books := []; file := Missing; saves := 0 |}
    = Raised UnicodeEncodeError
        {| books := [{| id := VInt new_id; title := VStr lone_surrogate;
                        author := VStr "Herbert"; year := VInt 1965;
                        status := VStr available |}];
           file := BadJson; saves := 1 |}.
Proof.
  split.
  - exact (proj1 (add_book_cases "Dune" "Herbert" 1965
                    {| books := [Book_init (VStr "Solaris") (VStr "Lem")
                                           (VInt 1961) VNone];
                       file := Missing; saves := 0 |}) eq_refl).
  - destruct (proj2 (add_book_cases lone_surrogate "Herbert" 1965
                       {| books := []; file := Missing; saves := 0 |}) eq_refl)
      as (new_id & _ & E).
    exists new_id. exact E.
Defined.

Lemma filter_fresh_id (n : Z) (bs : list Book) :
  existsb (has_id n) bs = false ->
  filter (fun b => negb (eq_int (id b) n)) bs = bs.
Proof.
  intros H. apply filter_keeps_all. rewrite <- H.
  apply existsb_pointwise. intros b. apply negb_involutive.
Qed.

Lemma remove_absent (book_id : Z) (st : State) :
  existsb (has_id book_id) (books st) = false ->
  remove_book book_id st = (false, st).
Proof.
  intros H. unfold remove_book. cbn [books set_books].
  rewrite (filter_fresh_id _ _ H), Nat.ltb_irrefl. now destruct st.
Qed.

(** X6: On a store whose ids are all ints or bools, removing the id that
    [add_book] has just returned undoes the add: [remove_book] returns
    True, the books are those from before the add, in the same order, and
    the file, saved twice, holds one object for each of them. *)
Theorem add_then_remove (title author : string) (year : Z) (st st1 : State)
  (new_id : Z) :
  forallb numeric_id (books st) = true ->
  Io.add_book title author year st = Returned new_id st1 ->
  Io.remove_book new_id st1 =
    Returned true {| books := books st; file := snapshot (books st);
                     saves := S (S (saves st)) |}.
Proof.
  intros Hnum E.
  destruct (io_add_book_outcome title author year st Hnum) as (n & Hfresh & E').
  cbv zeta in E'. rewrite E' in E.
  destruct (writable _) eqn:Hw; [|discriminate E].
  injection E as <- <-.
  rewrite writable_app in Hw. apply andb_true_iff in Hw. destruct Hw as [Hw _].
  unfold Io.remove_book. cbn [books set_books].
  rewrite filter_app, (filter_fresh_id _ _ Hfresh).
  cbn [filter id eq_int]. rewrite Z.eqb_refl. cbn [negb].
  rewrite app_nil_r, length_app. cbn [List.length].
  replace (List.length (books st) <? List.length (books st) + 1)%nat with true
    by (symmetry; apply Nat.ltb_lt; lia).
  rewrite save_writable by exact Hw. reflexivity.
Qed.

Lemma add_then_remove_witness :
  exists st1,
    Io.add_book "Dune" "Herbert" 1965
      {| books := []; file := BadJson; saves := 0 |} = Returned 1 st1 /\
    Io.remove_book 1 st1 =
      Returned true {| books := []; file := snapshot []; saves := 2 |}.
Proof.
  eexists. split; [reflexivity|].
  exact (add_then_remove "Dune" "Herbert" 1965
           {| books := []; file := BadJson; saves := 0 |} _ 1 eq_refl eq_refl).
Defined.

Lemma existsb_filter_out {A : Type} (p : A -> bool) (l : list A) :
  existsb p (filter (fun a => negb (p a)) l) = false.
Proof.
  induction l as [|a l IH]; [reflexivity|].
  cbn [filter]. destruct (p a) eqn:E; cbn [negb existsb]; [exact IH|].
  now rewrite E, IH.
Qed.

(** X7: Removing the same id a second time finds nothing: it returns False and
    does not save again. *)
Theorem remove_twice (book_id : Z) (st : State) :
  remove_book book_id (snd (remove_book book_id st)) =
    (false, snd (remove_book book_id st)).
Proof.
  apply remove_absent. rewrite remove_book_books.
  apply (existsb_filter_out (has_id book_id)).
Qed.

Lemma assign_status_again (book_id : Z) (s : string) (bs bs' : list Book) :
  assign_status book_id s bs = Some bs' ->
  assign_status book_id s bs' = Some bs'.
Proof.
  revert bs'. induction bs as [|b bs IH]; intros bs'; [discriminate|].
  cbn [assign_status].
  destruct (eq_int (id b) book_id) eqn:Eb; [destruct (is_status s) eqn:Es|].
  - intros E. injection E as <-. cbn [assign_status set_status id].
    now rewrite Eb, Es.
  - destruct (assign_status book_id s bs) as [bs0|]; [|discriminate].
    intros E. injection E as <-. cbn [assign_status].
    now rewrite Eb, Es, (IH bs0 eq_refl).
  - destruct (assign_status book_id s bs) as [bs0|]; [|discriminate].
    intros E. injection E as <-. cbn [assign_status].
    now rewrite Eb, (IH bs0 eq_refl).
Qed.

(** X8: [change_book_status] does not look at the current status: repeating a
    successful call returns True again, leaves the books as they are and
    rewrites the file once more. *)
Theorem change_status_twice (book_id : Z) (new_status : string)
  (st st1 : State) :
  change_book_status book_id new_status st = (true, st1) ->
  change_book_status book_id new_status st1 =
    (true, {| books := books st1; file := file st1; saves := S (saves st1) |}).
Proof.
  unfold change_book_status.
  destruct (assign_status book_id new_status (books st)) as [bs|] eqn:E;
    [|discriminate].
  intros H. injection H as <-. cbn [books save_books set_books].
  now rewrite (assign_status_again _ _ _ _ E).
Qed.

Lemma change_status_twice_witness :
  let st := {| books := [Book_init (VStr "Dune") (VStr "Herbert") (VInt 1965)
                                   (VInt 1)];
               file := Missing; saves := 0 |} in
  exists st1 st2,
    change_book_status 1 available st = (true, st1) /\
    change_book_status 1 available st1 = (true, st2) /\
    books st2 = books st /\ saves st2 = 2%nat.
Proof.
  intros st. eexists; eexists. split; [reflexivity|]. split.
  - exact (change_status_twice 1 available st _ eq_refl).
  - split; reflexivity.
Defined.

Lemma assign_status_keeps {A : Type} (proj : Book -> A) (book_id : Z)
  (s : string) (bs bs' : list Book) :
  (forall b v, proj (set_status b v) = proj b) ->
  assign_status book_id s bs = Some bs' -> map proj bs' = map proj bs.
Proof.
  intros Hproj. revert bs'. induction bs as [|b bs IH]; intros bs'; [discriminate|].
  cbn [assign_status].
  destruct (eq_int (id b) book_id); [destruct (is_status s)|].
  - intros E. injection E as <-. cbn [map]. now rewrite Hproj.
  - destruct (assign_status book_id s bs) as [bs0|]; [|discriminate].
    intros E. injection E as <-. cbn [map]. now rewrite (IH bs0).
  - destruct (assign_status book_id s bs) as [bs0|]; [|discriminate].
    intros E. injection E as <-. cbn [map]. now rewrite (IH bs0).
Qed.

(** X9: Whatever it returns, [change_book_status] keeps the number and order of
    the books and the id, title, author and year of each. *)
Theorem change_status_keeps_rest (book_id : Z) (new_status : string) (st : State) :
  let st' := snd (change_book_status book_id new_status st) in
  map id (books st') = map id (books st) /\
  map title (books st') = map title (books st) /\
  map author (books st') = map author (books st) /\
  map year (books st') = map year (books st).
Proof.
  cbv zeta. unfold change_book_status.
  destruct (assign_status book_id new_status (books st)) as [bs|] eqn:E;
    [|repeat split].
  cbn [snd books save_books set_books].
  repeat split.
  - exact (assign_status_keeps id _ _ _ _ (fun _ _ => eq_refl) E).
  - exact (assign_status_keeps title _ _ _ _ (fun _ _ => eq_refl) E).
  - exact (assign_status_keeps author _ _ _ _ (fun _ _ => eq_refl) E).
  - exact (assign_status_keeps year _ _ _ _ (fun _ _ => eq_refl) E).
Qed.

(** ** More on searching *)

(** X10: The test [needle in hay] of [search_books] is the substring test: it
    holds exactly when [hay] is some text, then [needle], then some text. *)
Theorem contains_iff_substring (needle hay : string) :
  contains needle hay = true <->
  exists pre post, hay = String.append pre (String.append needle post).
Proof. apply contains_substring. Qed.

Lemma contains_self (s : string) : contains s s = true.
Proof.
  assert (P : String.prefix s s = true).
  { apply prefix_iff_append. exists EmptyString.
    induction s as [|c s IH]; [reflexivity|].
    cbn [String.append]. now rewrite <- IH. }
  destruct s; cbn [contains]; now rewrite P.
Qed.

Lemma filterM_raises {A : Type} (f : A -> result bool) (l : list A) (e : exn) :
  filterM f l = Raise e -> exists a, In a l /\ f a = Raise e.
Proof.
  induction l as [|a l IH]; [discriminate|]. cbn [filterM].
  destruct (f a) as [r|e'] eqn:Ea; cbn [bind].
  - destruct (filterM f l) as [kept|e'']; cbn [bind]; [discriminate|].
    intros E. injection E as ->. destruct (IH eq_refl) as (x & Hx & Ex).
    exists x. split; [now right|exact Ex].
  - intros E. injection E as ->. exists a. split; [now left|exact Ea].
Qed.

Section MoreSearch.

Variable lower : string -> string.
Variable repr : value -> string.

Lemma matches_on_texts (query : string) (b : Book) :
  has_texts b = true ->
  matches lower repr query b = Ok (keeps lower repr query b).
Proof.
  unfold keeps, has_texts, matches, lower_of.
  destruct (title b) as [| | |t| |]; try discriminate.
  destruct (author b) as [| | |a| |]; try discriminate.
  intros _. cbn [bind]. destruct (contains query (lower t)); [reflexivity|].
  destruct (contains query (lower a)); reflexivity.
Qed.

Lemma matches_raises (query : string) (b : Book) (e : exn) :
  matches lower repr query b = Raise e ->
  e = AttributeError /\ has_texts b = false.
Proof.
  unfold has_texts, matches, lower_of.
  destruct (title b) as [| | |t| |]; cbn [bind];
    try (intros E; injection E as <-; now split).
  destruct (contains query (lower t)); [discriminate|].
  destruct (author b) as [| | |a| |]; cbn [bind];
    try (intros E; injection E as <-; now split).
  destruct (contains query (lower a)); discriminate.
Qed.

(** X11: [search_books] raises nothing when every title and author in the store
    is a str, whatever the years are, and what it returns is then a
    selection of the books in the order of the store.  When it raises, it
    raises AttributeError, and some book has a title or an author that is
    not a str. *)
Theorem search_books_errors (query : string) (st : State) :
  (forallb has_texts (books st) = true ->
   exists keep, search_books lower repr query st = Ok (filter keep (books st))) /\
  (forall e, search_books lower repr query st = Raise e ->
             e = AttributeError /\ forallb has_texts (books st) = false).
Proof.
  unfold search_books. split.
  - intros H. rewrite forallb_forall in H. exists (keeps lower repr (lower query)).
    apply filterM_pure. intros b Hb. apply matches_on_texts, H, Hb.
  - intros e E. destruct (filterM_raises _ _ _ E) as (b & Hb & Eb).
    destruct (matches_raises _ _ _ Eb) as [-> Hno]. split; [reflexivity|].
    destruct (forallb has_texts (books st)) eqn:Hall; [|reflexivity].
    rewrite forallb_forall in Hall. rewrite (Hall b Hb) in Hno. discriminate.
Qed.

(** X12: A book that has just been added is found by searching for its title and
    by searching for its author, provided the titles and authors already in
    the store are text. *)
Theorem added_book_is_found (new_title new_author : string) (new_year : Z)
  (st st' : State) (new_id : Z) :
  forallb has_texts (books st) = true ->
  add_book new_title new_author new_year st = Ok (new_id, st') ->
  let book := {| id := VInt new_id; title := VStr new_title;
                 author := VStr new_author; year := VInt new_year;
                 status := VStr available |} in
  exists by_title by_author,
    search_books lower repr new_title st' = Ok by_title /\
    In book by_title /\
    search_books lower repr new_author st' = Ok by_author /\
    In book by_author.
Proof.
  intros Htexts E book.
  pose proof (add_book_outcome new_title new_author new_year st) as H.
  destruct (forallb numeric_id (books st)); [|congruence].
  destruct H as (n & E' & _). rewrite E' in E. injection E as <- <-.
  assert (Hall : forall b, In b (books st ++ [book]) -> has_texts b = true).
  { intros b Hb. apply in_app_iff in Hb. destruct Hb as [Hb|[<-|[]]].
    - rewrite forallb_forall in Htexts. now apply Htexts.
    - reflexivity. }
  unfold search_books. cbn [books save_books set_books]. fold book.
  exists (filter (keeps lower repr (lower new_title)) (books st ++ [book])),
         (filter (keeps lower repr (lower new_author)) (books st ++ [book])).
  assert (Hin : In book (books st ++ [book]))
    by (apply in_app_iff; right; now left).
  repeat split.
  - apply filterM_pure. intros b Hb. apply matches_on_texts, Hall, Hb.
  - apply filter_In. split; [exact Hin|].
    unfold keeps, matches, lower_of, book. cbn [title bind].
    now rewrite contains_self.
  - apply filterM_pure. intros b Hb. apply matches_on_texts, Hall, Hb.
  - apply filter_In. split; [exact Hin|].
    unfold keeps, matches, lower_of, book. cbn [title author bind].
    destruct (contains (lower new_author) (lower new_title)); [reflexivity|].
    now rewrite contains_self.
Qed.

End MoreSearch.

(** [search_books_errors] at work: one book with a number for a title makes
    the search raise, unless no book is left with such a title. *)
Lemma search_books_errors_witness :
  let odd := Book_init (VInt 5) (VStr "Herbert") (VInt 1965) (VInt 1) in
  let dune := Book_init (VStr "Dune") (VStr "Herbert") (VStr "1965") (VInt 2) in
  search_books ascii_lower no_repr "dune"
    {| books := [dune; odd]; file := Missing; saves := 0 |}
    = Raise AttributeError /\
  exists keep,
    search_books ascii_lower no_repr "1965"
      {| books := [dune]; file := Missing; saves := 0 |}
    = Ok (filter keep [dune]).
Proof.
  intros odd dune. split; [reflexivity|].
  exact (proj1 (search_books_errors ascii_lower no_repr "1965"
                  {| books := [dune]; file := Missing; saves := 0 |}) eq_refl).
Defined.

Lemma added_book_is_found_witness :
  exists st' by_title,
    add_book "Dune" "Herbert" 1965 {| books := []; file := Missing; saves := 0 |}
      = Ok (1, st') /\
    search_books ascii_lower no_repr "Dune" st' = Ok by_title /\
    by_title <> [].
Proof.
  destruct (added_book_is_found ascii_lower no_repr "Dune" "Herbert" 1965
              {| books := []; file := Missing; saves := 0 |} _ 1
              eq_refl eq_refl)
    as (by_title & _ & E & Hin & _).
  eexists; exists by_title. split; [reflexivity|]. split; [exact E|].
  intros ->. exact Hin.
Defined.

(** ** What is in memory and what is on disk *)

Lemma remove_present (book_id : Z) (st : State) :
  existsb (has_id book_id) (books st) = true ->
  remove_book book_id st =
    (true, save_books
             (set_books st
                (filter (fun b => negb (eq_int (id b) book_id)) (books st)))).
Proof.
  intros H. unfold remove_book. cbn [books set_books].
  rewrite filter_shorter.
  rewrite (existsb_pointwise _ (has_id book_id));
    [now rewrite H|intros b; apply negb_involutive].
Qed.

Lemma step_saves (st st' : State) :
  step st st' ->
  st' = st \/
  (saves st' = S (saves st) /\ file st' = Json (_books_to_dict (books st'))).
Proof.
  intros [t a y st0 n st1 E|i st0|i s st0].
  - right. unfold add_book in E. destruct (next_id (books st0)); [|discriminate].
    cbn [bind] in E. injection E as _ <-. now split.
  - destruct (existsb (has_id i) (books st0)) eqn:H.
    + right. rewrite (remove_present _ _ H). now split.
    + left. now rewrite (remove_absent _ _ H).
  - unfold change_book_status.
    destruct (assign_status i s (books st0)); [right; now split|now left].
Qed.

(** X13: A call never changes the books without saving them: after an add, a
    removal or a status change that returned normally, either nothing at
    all has changed, or the file has been rewritten once and holds exactly
    the books now in memory. *)
Theorem no_unsaved_change (st st' : State) :
  step st st' ->
  st' = st \/
  (saves st' = S (saves st) /\ file st' = Json (_books_to_dict (books st'))).
Proof. apply step_saves. Qed.

Lemma no_unsaved_change_witness :
  let st := {| books := []; file := BadJson; saves := 0 |} in
  snd (remove_book 7 st) = st \/
  (saves (snd (remove_book 7 st)) = 1%nat /\
   file (snd (remove_book 7 st)) =
     Json (_books_to_dict (books (snd (remove_book 7 st))))).
Proof.
  intros st. exact (no_unsaved_change st _ (step_remove 7 st)).
Defined.

Lemma io_add_book_cases (title author : string) (year : Z) (st : State) :
  Io.add_book title author year st =
    match next_id (books st) with
    | Raise e => Raised e st
    | Ok new_id =>
        let added :=
          books st ++ [Book_init (VStr title) (VStr author) (VInt year)
                                 (VInt new_id)] in
        if writable added
        then Returned new_id {| books := added; file := snapshot added;
                                saves := S (saves st) |}
        else Raised UnicodeEncodeError
                    {| books := added; file := BadJson; saves := S (saves st) |}
    end.
Proof.
  unfold Io.add_book. destruct (next_id (books st)) as [n|e]; [|reflexivity].
  cbv zeta. destruct (writable _) eqn:Hw.
  - rewrite save_writable by exact Hw. reflexivity.
  - rewrite save_unwritable by exact Hw. reflexivity.
Qed.

Lemma io_remove_book_cases (book_id : Z) (st : State) :
  let kept := filter (fun b => negb (eq_int (id b) book_id)) (books st) in
  Io.remove_book book_id st =
    if existsb (has_id book_id) (books st)
    then if writable kept
         then Returned true {| books := kept; file := snapshot kept;
                               saves := S (saves st) |}
         else Raised UnicodeEncodeError
                     {| books := kept; file := BadJson; saves := S (saves st) |}
    else Returned false st.
Proof.
  cbv zeta. unfold Io.remove_book. cbn [books set_books].
  rewrite filter_shorter.
  rewrite (existsb_pointwise _ (has_id book_id))
    by (intros b; apply negb_involutive).
  destruct (existsb (has_id book_id) (books st)) eqn:Hex.
  - destruct (writable _) eqn:Hw.
    + rewrite save_writable by exact Hw. reflexivity.
    + rewrite save_unwritable by exact Hw. reflexivity.
  - rewrite (filter_fresh_id _ _ Hex). now destruct st.
Qed.

Lemma io_change_book_status_cases (book_id : Z) (new_status : string)
  (st : State) :
  Io.change_book_status book_id new_status st =
    match assign_status book_id new_status (books st) with
    | Some bs =>
        if writable bs
        then Returned true {| books := bs; file := snapshot bs;
                              saves := S (saves st) |}
        else Raised UnicodeEncodeError
                    {| books := bs; file := BadJson; saves := S (saves st) |}
    | None => Returned false st
    end.
Proof.
  unfold Io.change_book_status.
  destruct (assign_status book_id new_status (books st)) as [bs|]; [|reflexivity].
  destruct (writable bs) eqn:Hw.
  - rewrite save_writable by exact Hw. reflexivity.
  - rewrite save_unwritable by exact Hw. reflexivity.
Qed.

(** A call, however it ends, leaves everything as it was, or changes the
    books as the call that completes does and rewrites the file: with one
    object per book if every text can be encoded, and with an undecodable
    beginning otherwise. *)
Lemma io_step_cases (st st' : State) :
  io_step st st' ->
  st' = st \/
  exists st'',
    step st st'' /\
    ((writable (books st'') = true /\
      st' = {| books := books st''; file := snapshot (books st'');
               saves := S (saves st) |}) \/
     (writable (books st'') = false /\
      st' = {| books := books st''; file := BadJson;
               saves := S (saves st) |})).
Proof.
  intros [t a y st0|i st0|i s st0].
  - rewrite io_add_book_cases.
    destruct (next_id (books st0)) as [n|e] eqn:En; [|now left].
    right. cbv zeta.
    assert (S : add_book t a y st0 =
                Ok (n, save_books (set_books st0
                         (books st0 ++ [Book_init (VStr t) (VStr a) (VInt y)
                                                  (VInt n)]))))
      by (unfold add_book; now rewrite En).
    eexists. split; [exact (step_add _ _ _ _ _ _ S)|].
    cbn [books save_books set_books].
    destruct (writable _); [left|right]; now split.
  - rewrite io_remove_book_cases. cbv zeta.
    destruct (existsb (has_id i) (books st0)); [|now left].
    right. exists (snd (remove_book i st0)). split; [apply step_remove|].
    rewrite remove_book_books.
    destruct (writable _); [left|right]; now split.
  - rewrite io_change_book_status_cases.
    pose proof (step_change i s st0) as S. unfold change_book_status in S.
    destruct (assign_status i s (books st0)) as [bs|]; [|now left].
    right. eexists. split; [exact S|].
    cbn [snd books save_books set_books].
    destruct (writable bs); [left|right]; now split.
Qed.

Lemma io_step_books (P : list Book -> Prop) (st st' : State) :
  (forall st'', step st st'' -> P (books st) -> P (books st'')) ->
  io_step st st' -> P (books st) -> P (books st').
Proof.
  intros Hstep Hio HP.
  destruct (io_step_cases st st' Hio) as [->|(st'' & S & [[_ ->]|[_ ->]])];
    [exact HP| |]; cbn [books]; now apply Hstep.
Qed.

Lemma io_reachable_invariant (P : list Book -> Prop) (f : file_state) :
  (forall st0, Library_init f = Ok st0 -> P (books st0)) ->
  (forall st st', step st st' -> P (books st) -> P (books st')) ->
  forall st, io_reachable f st -> P (books st).
Proof.
  intros Hinit Hstep st Hreach.
  induction Hreach as [st0 E|st st' _ IH Hs]; [now apply Hinit|].
  apply (io_step_books P st st'); [intros st''; apply Hstep|exact Hs|exact IH].
Qed.

Lemma io_restart (f : file_state) (st : State) :
  io_reachable f st ->
  writable (books st) = true ->
  Library_init (file st) =
    Ok {| books := books st; file := file st; saves := 0 |}.
Proof.
  induction 1 as [st0 E|st st' _ IH Hs]; intros Hw.
  - destruct (init_keeps_file f st0 E) as [Hf Hs].
    rewrite Hf, E. destruct st0 as [bs f0 n]. cbn in *. now subst.
  - destruct (io_step_cases st st' Hs) as [->|(st'' & _ & [[_ ->]|[Hno ->]])].
    + now apply IH.
    + cbn [books file]. apply init_on_snapshot.
    + cbn [books] in Hw. rewrite Hw in Hno. discriminate Hno.
Qed.

(** X14: In every state reached from the constructor by adds, removals and
    status changes, calls whose save fails included, if every text the
    books now hold can be encoded as UTF-8, then a new program started on
    the file as it is loads exactly the books in memory, in the same
    order. *)
Theorem restart_restores_books (f : file_state) (st : State) :
  io_reachable f st ->
  writable (books st) = true ->
  Library_init (file st) =
    Ok {| books := books st; file := file st; saves := 0 |}.
Proof. apply io_restart. Qed.

(** [restart_restores_books] after a save that failed: a book with an
    unencodable title is added, then a second book, then the first is
    removed. *)
Lemma restart_restores_books_witness :
  exists st,
    io_reachable BadJson st /\
    map id (books st) = [VInt 2] /\ saves st = 3%nat /\
    Library_init (file st) =
      Ok {| books := books st; file := file st; saves := 0 |}.
Proof.
  pose (st0 := {| books := []; file := BadJson; saves := 0 |}).
  pose (st1 := state_after (Io.add_book lone_surrogate "Herbert" 1965 st0)).
  pose (st2 := state_after (Io.add_book "Solaris" "Lem" 1961 st1)).
  pose (st3 := state_after (Io.remove_book 1 st2)).
  assert (R : io_reachable BadJson st3).
  { apply io_reach_step with st2; [|apply io_remove].
    apply io_reach_step with st1; [|apply io_add].
    apply io_reach_step with st0; [|apply io_add].
    apply io_reach_init. reflexivity. }
  exists st3. split; [exact R|]. split; [reflexivity|]. split; [reflexivity|].
  exact (restart_restores_books BadJson st3 R eq_refl).
Defined.


(** ** The menu loop *)

Lemma after_after (evs1 evs2 : list event) (r : run) :
  after evs1 (after evs2 r) = after (evs1 ++ evs2) r.
Proof. unfold after. cbn [shown how final]. now rewrite app_assoc. Qed.

Lemma assign_status_sound (book_id : Z) (s : string) (bs bs' : list Book) :
  assign_status book_id s bs = Some bs' ->
  forallb sound_book bs = true -> forallb sound_book bs' = true.
Proof.
  revert bs'. induction bs as [|b bs IH]; intros bs'; [discriminate|].
  cbn [assign_status forallb]. rewrite andb_true_iff.
  destruct (eq_int (id b) book_id); [destruct (is_status s)|].
  - intros E [Hb Hbs]. injection E as <-. cbn [forallb].
    apply andb_true_iff. split; [exact Hb|exact Hbs].
  - destruct (assign_status book_id s bs) as [bs0|]; [|discriminate].
    intros E [Hb Hbs]. injection E as <-. cbn [forallb].
    apply andb_true_iff. split; [exact Hb|now apply IH].
  - destruct (assign_status book_id s bs) as [bs0|]; [|discriminate].
    intros E [Hb Hbs]. injection E as <-. cbn [forallb].
    apply andb_true_iff. split; [exact Hb|now apply IH].
Qed.

Lemma forallb_filter_keeps {A : Type} (q p : A -> bool) (l : list A) :
  forallb q l = true -> forallb q (filter p l) = true.
Proof.
  rewrite !forallb_forall. intros H a Ha. apply filter_In in Ha. now apply H.
Qed.

Lemma step_sound (st st' : State) :
  step st st' ->
  forallb sound_book (books st) = true -> forallb sound_book (books st') = true.
Proof.
  intros Hstep Hall. destruct Hstep as [t a y st n st' E|i st|i s st].
  - unfold add_book in E. destruct (next_id (books st)); [|discriminate].
    cbn [bind] in E. injection E as _ <-. cbn [save_books set_books books].
    rewrite forallb_app, Hall. reflexivity.
  - rewrite remove_book_books. now apply forallb_filter_keeps.
  - unfold change_book_status.
    destruct (assign_status i s (books st)) as [bs|] eqn:E; [|exact Hall].
    cbn [snd save_books set_books books]. exact (assign_status_sound _ _ _ _ E Hall).
Qed.

Lemma sound_numeric (bs : list Book) :
  forallb sound_book bs = true -> forallb numeric_id bs = true.
Proof.
  rewrite !forallb_forall. intros H b Hb. specialize (H b Hb).
  unfold sound_book in H. now apply andb_true_iff in H.
Qed.

Lemma sound_texts (bs : list Book) :
  forallb sound_book bs = true -> forallb has_texts bs = true.
Proof.
  rewrite !forallb_forall. intros H b Hb. specialize (H b Hb).
  unfold sound_book in H. now apply andb_true_iff in H.
Qed.

Lemma loop_induction (P : list string -> State -> Prop) :
  (forall inputs st,
      (forall rest st', (List.length rest < List.length inputs)%nat -> P rest st') ->
      P inputs st) ->
  forall inputs st, P inputs st.
Proof.
  intros Hrec inputs.
  induction inputs as [inputs IH] using (induction_ltof1 _ (@List.length string)).
  intros st. apply Hrec. intros rest st' Hlt. now apply IH.
Qed.

Lemma next_id_raises (bs : list Book) (e : exn) :
  next_id bs = Raise e -> e = TypeError.
Proof.
  unfold next_id. destruct (numbers (map id bs)); [discriminate|].
  intros E. now injection E as <-.
Qed.

Section ShellProperties.

Variable lower : string -> string.
Variable repr : value -> string.
Variable int_of : string -> option Z.

Lemma search_raises (query : string) (st : State) (e : exn) :
  search_books lower repr query st = Raise e -> e = AttributeError.
Proof.
  unfold search_books. intros E.
  destruct (filterM_raises _ _ _ E) as (b & _ & Eb).
  now destruct (matches_raises _ _ _ _ _ Eb).
Qed.

(** One pass through the body of the loop: the input ends, or the user
    leaves with 6, or the library raises what [except ValueError] does not
    catch, or the loop goes round again on the lines not yet read, the
    library being the same or one call on. *)
Lemma main_loop_turn (inputs : list string) (st : State) :
  (exists evs, main_loop lower repr int_of inputs st = after evs (stop EndOfInput st)) \/
  (exists evs rest,
      inputs = "6" :: rest /\ main_loop lower repr int_of inputs st = after evs (stop Exited st)) \/
  (exists evs e,
      main_loop lower repr int_of inputs st = after evs (stop (Uncaught e) st) /\
      (next_id (books st) = Raise e \/
       (exists q, search_books lower repr q st = Raise e))) \/
  (exists evs choice taken rest st',
      inputs = choice :: taken ++ rest /\
      main_loop lower repr int_of inputs st = after evs (main_loop lower repr int_of rest st') /\
      (st' = st \/ (io_step st st' /\ In choice ["1"; "2"; "5"]))).
Proof.
  destruct inputs as [|choice inputs]; cbn [main_loop];
    [left; eexists; reflexivity|].
  destruct (String.eqb_spec choice "1") as [->|_].
  { destruct inputs as [|t inputs]; [left; rewrite ?after_after; eexists; reflexivity|].
    destruct inputs as [|a inputs]; [left; rewrite ?after_after; eexists; reflexivity|].
    destruct inputs as [|y inputs]; [left; rewrite ?after_after; eexists; reflexivity|].
    destruct (int_of y) as [n|].
    - pose proof (io_add t a n st) as S. rewrite io_add_book_cases in S |- *.
      destruct (next_id (books st)) as [new_id|e] eqn:En.
      + right; right; right. cbv zeta in S |- *.
        destruct (writable _); cbn [state_after is_value_error] in S |- *;
          rewrite ?after_after; eexists;
          exists "1", [t; a; y], inputs; eexists;
          (split; [reflexivity|]); (split; [reflexivity|]); right;
          (split; [exact S|now left]).
      + right; right; left. rewrite (next_id_raises _ _ En).
        cbn [is_value_error]. rewrite ?after_after. eexists. exists TypeError.
        split; [reflexivity|]. left. now rewrite (next_id_raises _ _ En) in En.
    - right; right; right. rewrite ?after_after.
      eexists. exists "1", [t; a; y], inputs, st.
      split; [reflexivity|]. split; [reflexivity|now left]. }
  destruct (String.eqb_spec choice "2") as [->|_].
  { destruct inputs as [|i inputs]; [left; rewrite ?after_after; eexists; reflexivity|].
    right; right; right. destruct (int_of i) as [n|].
    - pose proof (io_remove n st) as S. rewrite io_remove_book_cases in S |- *.
      cbv zeta in S |- *.
      destruct (existsb (has_id n) (books st)); [destruct (writable _)|];
        cbn [state_after is_value_error] in S |- *;
        rewrite ?after_after; eexists;
        exists "2", [i], inputs; eexists;
        (split; [reflexivity|]); (split; [reflexivity|]); right;
        (split; [exact S|right; now left]).
    - rewrite ?after_after. eexists. exists "2", [i], inputs, st.
      split; [reflexivity|]. split; [reflexivity|now left]. }
  destruct (String.eqb_spec choice "3") as [->|_].
  { destruct inputs as [|q inputs]; [left; rewrite ?after_after; eexists; reflexivity|].
    destruct (search_books lower repr q st) as [results|e] eqn:E.
    - right; right; right. rewrite ?after_after.
      eexists. exists "3", [q], inputs, st.
      split; [reflexivity|]. split; [reflexivity|now left].
    - right; right; left. rewrite (search_raises _ _ _ E).
      cbn [is_value_error]. rewrite ?after_after. eexists. exists AttributeError.
      split; [reflexivity|]. right. exists q.
      now rewrite (search_raises _ _ _ E) in E. }
  destruct (String.eqb_spec choice "4") as [->|_].
  { right; right; right. rewrite ?after_after.
    eexists. exists "4", [], inputs, st.
    split; [reflexivity|]. split; [reflexivity|now left]. }
  destruct (String.eqb_spec choice "5") as [->|_].
  { destruct inputs as [|i inputs]; [left; rewrite ?after_after; eexists; reflexivity|].
    destruct (int_of i) as [n|].
    - destruct inputs as [|s inputs]; [left; rewrite ?after_after; eexists; reflexivity|].
      right; right; right.
      pose proof (io_change n s st) as S.
      rewrite io_change_book_status_cases in S |- *.
      destruct (assign_status n s (books st)) as [bs|]; [destruct (writable bs)|];
        cbn [state_after is_value_error] in S |- *;
        rewrite ?after_after; eexists;
        exists "5", [i; s], inputs; eexists;
        (split; [reflexivity|]); (split; [reflexivity|]); right;
        (split; [exact S|right; right; now left]).
    - right; right; right. rewrite ?after_after.
      eexists. exists "5", [i], inputs, st.
      split; [reflexivity|]. split; [reflexivity|now left]. }
  destruct (String.eqb_spec choice "6") as [->|_].
  { right; left. eexists. exists inputs. split; reflexivity. }
  right; right; right. rewrite ?after_after.
  eexists. exists choice, [], inputs, st.
  split; [reflexivity|]. split; [reflexivity|now left].
Qed.

Lemma loop_reachable (f : file_state) (inputs : list string) (st : State) :
  io_reachable f st -> io_reachable f (final (main_loop lower repr int_of inputs st)).
Proof.
  revert inputs st. apply (loop_induction (fun inputs st =>
    io_reachable f st -> io_reachable f (final (main_loop lower repr int_of inputs st)))).
  intros inputs st IH Hst.
  destruct (main_loop_turn inputs st)
    as [(evs & ->)|[(evs & rest & _ & ->)|[(evs & e & -> & _)|
        (evs & choice & taken & rest & st' & -> & -> & Hst')]]];
    try exact Hst.
  cbn [after final]. apply IH.
  - cbn [List.length]. rewrite length_app. lia.
  - destruct Hst' as [->|[Hs _]]; [exact Hst|].
    now apply io_reach_step with st.
Qed.

Lemma loop_invariant (P : list Book -> Prop) (inputs : list string) (st : State) :
  (forall st st', step st st' -> P (books st) -> P (books st')) ->
  P (books st) -> P (books (final (main_loop lower repr int_of inputs st))).
Proof.
  intros Hstep. revert inputs st. apply (loop_induction (fun inputs st =>
    P (books st) -> P (books (final (main_loop lower repr int_of inputs st))))).
  intros inputs st IH Hst.
  destruct (main_loop_turn inputs st)
    as [(evs & ->)|[(evs & rest & _ & ->)|[(evs & e & -> & _)|
        (evs & choice & taken & rest & st' & -> & -> & Hst')]]];
    try exact Hst.
  cbn [after final]. apply IH.
  - cbn [List.length]. rewrite length_app. lia.
  - destruct Hst' as [->|[Hs _]]; [exact Hst|].
    apply (io_step_books P st st'); [intros st''; apply Hstep|exact Hs|exact Hst].
Qed.

Lemma loop_never_crashes (inputs : list string) (st : State) :
  forallb sound_book (books st) = true ->
  (how (main_loop lower repr int_of inputs st) = Exited \/ how (main_loop lower repr int_of inputs st) = EndOfInput) /\
  forallb sound_book (books (final (main_loop lower repr int_of inputs st))) = true.
Proof.
  revert inputs st. apply (loop_induction (fun inputs st =>
    forallb sound_book (books st) = true ->
    (how (main_loop lower repr int_of inputs st) = Exited \/ how (main_loop lower repr int_of inputs st) = EndOfInput) /\
    forallb sound_book (books (final (main_loop lower repr int_of inputs st))) = true)).
  intros inputs st IH Hst.
  destruct (main_loop_turn inputs st)
    as [(evs & ->)|[(evs & rest & _ & ->)|[(evs & e & _ & Hraise)|
        (evs & choice & taken & rest & st' & -> & -> & Hst')]]].
  - split; [now right|exact Hst].
  - split; [now left|exact Hst].
  - exfalso. destruct Hraise as [E|(q & E)].
    + pose proof (numbers_numeric (books st)) as H.
      rewrite (sound_numeric _ Hst) in H. destruct H as (ns & H & _).
      unfold next_id in E. rewrite H in E. discriminate E.
    + unfold search_books in E.
      destruct (filterM_raises _ _ _ E) as (b & Hb & Eb).
      destruct (matches_raises _ _ _ _ _ Eb) as [_ Hno].
      pose proof (sound_texts _ Hst) as Ht. rewrite forallb_forall in Ht.
      rewrite (Ht b Hb) in Hno. discriminate Hno.
  - cbn [after how final]. apply IH.
    + cbn [List.length]. rewrite length_app. lia.
    + destruct Hst' as [->|[Hs _]]; [exact Hst|].
      apply (io_step_books (fun bs => forallb sound_book bs = true) st st');
        [intros st''; apply step_sound|exact Hs|exact Hst].
Qed.

Lemma loop_exit_needs_6 (inputs : list string) (st : State) :
  how (main_loop lower repr int_of inputs st) = Exited -> In "6" inputs.
Proof.
  revert inputs st. apply (loop_induction (fun inputs st =>
    how (main_loop lower repr int_of inputs st) = Exited -> In "6" inputs)).
  intros inputs st IH.
  destruct (main_loop_turn inputs st)
    as [(evs & ->)|[(evs & rest & -> & _)|[(evs & e & -> & _)|
        (evs & choice & taken & rest & st' & -> & -> & _)]]];
    try discriminate.
  - intros _. now left.
  - cbn [after how]. intros H. right. apply in_app_iff. right.
    apply (IH rest st'); [|exact H].
    cbn [List.length]. rewrite length_app. lia.
Qed.

Lemma loop_read_only (inputs : list string) (st : State) :
  ~ In "1" inputs -> ~ In "2" inputs -> ~ In "5" inputs ->
  final (main_loop lower repr int_of inputs st) = st.
Proof.
  revert inputs st. apply (loop_induction (fun inputs st =>
    ~ In "1" inputs -> ~ In "2" inputs -> ~ In "5" inputs ->
    final (main_loop lower repr int_of inputs st) = st)).
  intros inputs st IH H1 H2 H5.
  destruct (main_loop_turn inputs st)
    as [(evs & ->)|[(evs & rest & _ & ->)|[(evs & e & -> & _)|
        (evs & choice & taken & rest & st' & -> & -> & Hst')]]];
    try reflexivity.
  cbn [after final].
  assert (E : st' = st).
  { destruct Hst' as [->|[_ Hc]]; [reflexivity|]. exfalso.
    destruct Hc as [<-|[<-|[<-|[]]]];
      [apply H1|apply H2|apply H5]; now left. }
  subst st'. apply IH.
  - cbn [List.length]. rewrite length_app. lia.
  - intros H. apply H1. right. apply in_app_iff. now right.
  - intros H. apply H2. right. apply in_app_iff. now right.
  - intros H. apply H5. right. apply in_app_iff. now right.
Qed.

End ShellProperties.

Section ShellTheorems.

Variable lower : string -> string.
Variable repr : value -> string.
Variable int_of : string -> option Z.

(** X15: Whatever the user types, the library [main] ends with is in a state
    that the constructor followed by adds, removals and status changes
    produces, the calls whose save fails and is caught by
    [except ValueError] included: the menu has no other way to touch the
    books or the file. *)
Theorem main_ends_reachable (f : file_state) (inputs : list string) (r : run) :
  main lower repr int_of f inputs = Ok r -> io_reachable f (final r).
Proof.
  unfold main. destruct (Library_init f) as [st0|e] eqn:E;
    [|discriminate].
  cbn [bind]. intros H. injection H as <-.
  apply loop_reachable. now apply io_reach_init.
Qed.

(** X16: If the books the constructor loads have numbers for ids and text for
    titles and authors (none is loaded from a missing or undecodable file),
    then no exception of the library ever ends [main]: whatever the user
    types, the program ends by choice 6 or because the input ends, and the
    books are still of that kind. *)
Theorem main_never_crashes (f : file_state) (inputs : list string) (st0 : State) :
  Library_init f = Ok st0 ->
  forallb sound_book (books st0) = true ->
  exists r,
    main lower repr int_of f inputs = Ok r /\
    (how r = Exited \/ how r = EndOfInput) /\
    forallb sound_book (books (final r)) = true.
Proof.
  intros E Hsound. unfold main. rewrite E. cbn [bind].
  eexists. split; [reflexivity|]. now apply loop_never_crashes.
Qed.

(** X17: [main] leaves its loop only when a line typed is 6: if no line of the
    input is 6, the program runs until the input ends or an exception
    escapes. *)
Theorem main_exits_only_on_6 (f : file_state) (inputs : list string) (r : run) :
  main lower repr int_of f inputs = Ok r -> how r = Exited -> In "6" inputs.
Proof.
  unfold main. destruct (Library_init f) as [st0|e]; [|discriminate].
  cbn [bind]. intros H. injection H as <-. apply loop_exit_needs_6.
Qed.

(** X18: Searching, listing, mistyped choices and quitting write nothing: if no
    line typed is 1, 2 or 5, [main] ends with the books the constructor
    loaded and with the file untouched. *)
Theorem main_read_only_session (f : file_state) (inputs : list string) (r : run) :
  main lower repr int_of f inputs = Ok r ->
  ~ In "1" inputs -> ~ In "2" inputs -> ~ In "5" inputs ->
  Library_init f = Ok (final r) /\ file (final r) = f /\ saves (final r) = 0%nat.
Proof.
  unfold main. destruct (Library_init f) as [st0|e] eqn:E;
    [|discriminate].
  cbn [bind]. intros H H1 H2 H5. injection H as <-.
  rewrite (loop_read_only lower repr int_of inputs st0 H1 H2 H5).
  split; [reflexivity|]. now apply init_keeps_file.
Qed.

(** X19: However [main] ends, if every text the books then hold can be
    encoded as UTF-8, the file it leaves loads back into exactly the books
    it had in memory at the end. *)
Theorem main_leaves_file_in_step (f : file_state) (inputs : list string) (r : run) :
  main lower repr int_of f inputs = Ok r ->
  writable (books (final r)) = true ->
  Library_init (file (final r)) =
    Ok {| books := books (final r); file := file (final r); saves := 0 |}.
Proof.
  unfold main. destruct (Library_init f) as [st0|e] eqn:E;
    [|discriminate].
  cbn [bind]. intros H. injection H as <-.
  apply io_restart with f. apply loop_reachable. now apply io_reach_init.
Qed.

(** X20: If the books the constructor loads have pairwise distinct integer ids
    and statuses among the two labels, so have the books [main] ends
    with. *)
Theorem main_keeps_books_valid (f : file_state) (inputs : list string)
  (st0 : State) (r : run) :
  Library_init f = Ok st0 ->
  distinct_ids (books st0) -> Forall status_ok (books st0) ->
  main lower repr int_of f inputs = Ok r ->
  distinct_ids (books (final r)) /\ Forall status_ok (books (final r)).
Proof.
  intros E Hd Hs H. revert H. unfold main. rewrite E. cbn [bind].
  intros H. injection H as <-. split.
  - apply (loop_invariant lower repr int_of distinct_ids);
      [exact step_distinct_ids|exact Hd].
  - apply (loop_invariant lower repr int_of (Forall status_ok));
      [exact step_status_ok|exact Hs].
Qed.

End ShellTheorems.

(** *** Sessions, with ASCII [lower] and decimal [int] *)

(** A session on a file whose first book has a title that cannot be encoded
    (the file holds the escape for U+D800): the add appends a book and its
    save fails, the status change fails the same way, and once the first
    book is removed the save writes the book that was added. *)
Lemma main_ends_reachable_witness :
  let f := Json (VList [VDict [("id", VInt 1); ("title", VStr lone_surrogate);
                               ("author", VStr "Herbert"); ("year", VInt 1965);
                               ("status", VStr available)]]) in
  let dune := {| id := VInt 2; title := VStr "Dune"; author := VStr "Herbert";
                 year := VInt 1965; status := VStr checked_out |} in
  exists r,
    main ascii_lower no_repr digits_to_int f
         ["1"; "Dune"; "Herbert"; "1965"; "5"; "2"; "выдана"; "2"; "1"; "6"]
      = Ok r /\
    how r = Exited /\
    final r = {| books := [dune]; file := snapshot [dune]; saves := 3 |} /\
    io_reachable f (final r).
Proof.
  intros f dune. eexists. split; [reflexivity|].
  split; [reflexivity|]. split; [reflexivity|].
  apply (main_ends_reachable ascii_lower no_repr digits_to_int f
           ["1"; "Dune"; "Herbert"; "1965"; "5"; "2"; "выдана"; "2"; "1"; "6"]).
  reflexivity.
Defined.

Lemma main_never_crashes_witness :
  exists r,
    main ascii_lower no_repr digits_to_int Missing
         ["1"; "Dune"; "Herbert"; "year"; "3"; "dune"; "2"; "1"] = Ok r /\
    (how r = Exited \/ how r = EndOfInput) /\
    forallb sound_book (books (final r)) = true.
Proof.
  exact (main_never_crashes ascii_lower no_repr digits_to_int Missing
           ["1"; "Dune"; "Herbert"; "year"; "3"; "dune"; "2"; "1"]
           _ eq_refl eq_refl).
Defined.

Lemma main_exits_only_on_6_witness : In "6" ["3"; "dune"; "6"; "4"].
Proof.
  exact (main_exits_only_on_6 ascii_lower no_repr digits_to_int Missing
           ["3"; "dune"; "6"; "4"] _ eq_refl eq_refl).
Defined.

Lemma main_read_only_session_witness :
  exists r,
    main ascii_lower no_repr digits_to_int BadJson ["3"; "dune"; "4"; "9"; "6"]
      = Ok r /\
    file (final r) = BadJson /\ saves (final r) = 0%nat.
Proof.
  eexists. split; [reflexivity|].
  refine (proj2 (main_read_only_session ascii_lower no_repr digits_to_int
                   BadJson ["3"; "dune"; "4"; "9"; "6"] _ eq_refl _ _ _));
    intros H; repeat (destruct H as [H|H]; [discriminate H|]); exact H.
Defined.

Lemma main_leaves_file_in_step_witness :
  exists r,
    main ascii_lower no_repr digits_to_int BadJson
         ["1"; "Dune"; "Herbert"; "1965"] = Ok r /\
    how r = EndOfInput /\
    Library_init (file (final r)) =
      Ok {| books := books (final r); file := file (final r); saves := 0 |}.
Proof.
  eexists. split; [reflexivity|]. split; [reflexivity|].
  apply (main_leaves_file_in_step ascii_lower no_repr digits_to_int BadJson
           ["1"; "Dune"; "Herbert"; "1965"]); reflexivity.
Defined.

Lemma main_keeps_books_valid_witness :
  exists r,
    main ascii_lower no_repr digits_to_int Missing
         ["1"; "Dune"; "Herbert"; "1965"; "1"; "Solaris"; "Lem"; "1961";
          "5"; "2"; "lost"; "2"; "1"; "6"] = Ok r /\
    map id (books (final r)) = [VInt 2] /\
    distinct_ids (books (final r)) /\ Forall status_ok (books (final r)).
Proof.
  eexists. split; [reflexivity|]. split; [reflexivity|].
  apply (main_keeps_books_valid ascii_lower no_repr digits_to_int Missing
           ["1"; "Dune"; "Herbert"; "1965"; "1"; "Solaris"; "Lem"; "1961";
            "5"; "2"; "lost"; "2"; "1"; "6"]
           {| books := []; file := Missing; saves := 0 |}).
  - reflexivity.
  - exists []. split; [reflexivity|constructor].
  - constructor.
  - reflexivity.
Defined.

(** ** Files in the documented format *)

Lemma is_record_book_to_dict (b : Book) :
  is_record (book_to_dict b) = model_book b.
Proof.
  destruct b as [i t a y s]. unfold model_book. cbn.
  destruct i, t, a, y, s; reflexivity.
Qed.

Lemma saved_file_format (st : State) :
  validly_structured (file (save_books st)) = forallb model_book (books st).
Proof.
  cbn [save_books file validly_structured _books_to_dict].
  induction (books st) as [|b bs IH]; [reflexivity|].
  cbn [map forallb]. now rewrite is_record_book_to_dict, IH.
Qed.

Lemma create_from_record (v : value) :
  is_record v = true ->
  exists b, _create_book_from_dict v = Ok b /\ model_book b = true.
Proof.
  destruct v as [| | | | |entries]; try discriminate.
  unfold is_record, _create_book_from_dict, subscript.
  destruct (lookup "id" entries) as [[| |i| | |]|]; try discriminate.
  destruct (lookup "title" entries) as [[| | |t| |]|]; try discriminate.
  destruct (lookup "author" entries) as [[| | |a| |]|]; try discriminate.
  destruct (lookup "year" entries) as [[| |y| | |]|]; try discriminate.
  destruct (lookup "status" entries) as [[| | |s| |]|]; try discriminate.
  intros Hs. eexists. split; [reflexivity|exact Hs].
Qed.

Lemma load_records (items : list value) :
  forallb is_record items = true ->
  exists bs, mapM _create_book_from_dict items = Ok bs /\
             forallb model_book bs = true /\
             List.length bs = List.length items.
Proof.
  induction items as [|v items IH]; cbn [forallb mapM].
  - intros _. now exists [].
  - rewrite andb_true_iff. intros [Hv Hitems].
    destruct (create_from_record v Hv) as (b & -> & Hb).
    destruct (IH Hitems) as (bs & -> & Hbs & Hlen).
    exists (b :: bs). cbn [bind forallb List.length].
    now rewrite Hb, Hbs, Hlen.
Qed.

Lemma valid_file_init (f : file_state) :
  validly_structured f = true ->
  exists st, Library_init f = Ok st /\ forallb model_book (books st) = true.
Proof.
  destruct f as [| | |[| | | |items|]]; try discriminate.
  cbn [validly_structured]. intros H.
  destruct (load_records items H) as (bs & E & Hbs & _).
  unfold Library_init, load_books. cbn [file iterate bind]. rewrite E.
  eexists. split; [reflexivity|exact Hbs].
Qed.

Lemma assign_status_model (book_id : Z) (s : string) (bs bs' : list Book) :
  assign_status book_id s bs = Some bs' ->
  forallb model_book bs = true -> forallb model_book bs' = true.
Proof.
  revert bs'. induction bs as [|b bs IH]; intros bs'; [discriminate|].
  cbn [assign_status forallb]. rewrite andb_true_iff.
  destruct (eq_int (id b) book_id); [destruct (is_status s) eqn:Es|].
  - intros E [Hb Hbs]. injection E as <-. cbn [forallb].
    apply andb_true_iff. split; [|exact Hbs].
    unfold model_book in *. cbn [set_status id title author year status].
    destruct (id b), (title b), (author b), (year b); try discriminate Hb.
    exact Es.
  - destruct (assign_status book_id s bs) as [bs0|]; [|discriminate].
    intros E [Hb Hbs]. injection E as <-. cbn [forallb].
    apply andb_true_iff. split; [exact Hb|now apply IH].
  - destruct (assign_status book_id s bs) as [bs0|]; [|discriminate].
    intros E [Hb Hbs]. injection E as <-. cbn [forallb].
    apply andb_true_iff. split; [exact Hb|now apply IH].
Qed.

Lemma step_model (st st' : State) :
  step st st' ->
  forallb model_book (books st) = true -> forallb model_book (books st') = true.
Proof.
  intros Hstep Hall. destruct Hstep as [t a y st n st' E|i st|i s st].
  - unfold add_book in E. destruct (next_id (books st)); [|discriminate].
    cbn [bind] in E. injection E as _ <-. cbn [save_books set_books books].
    rewrite forallb_app, Hall. reflexivity.
  - rewrite remove_book_books. now apply forallb_filter_keeps.
  - unfold change_book_status.
    destruct (assign_status i s (books st)) as [bs|] eqn:E; [|exact Hall].
    cbn [snd save_books set_books books]. exact (assign_status_model _ _ _ _ E Hall).
Qed.

Lemma snapshot_format (bs : list Book) :
  validly_structured (snapshot bs) = forallb model_book bs.
Proof.
  exact (saved_file_format {| books := bs; file := Missing; saves := 0 |}).
Qed.

Lemma io_reachable_keeps_format (f : file_state) (st : State) :
  validly_structured f = true ->
  io_reachable f st ->
  forallb model_book (books st) = true /\
  (writable (books st) = true -> validly_structured (file st) = true).
Proof.
  intros Hf. induction 1 as [st0 E|st st' _ [IHb IHf] Hs].
  - destruct (valid_file_init f Hf) as (st1 & E1 & Hb).
    rewrite E in E1. injection E1 as <-. split; [exact Hb|].
    intros _. now rewrite (proj1 (init_keeps_file f st0 E)).
  - destruct (io_step_cases st st' Hs)
      as [->|(st'' & S & [[_ ->]|[Hno ->]])]; [now split| |];
      pose proof (step_model st st'' S IHb) as Hb'; cbn [books file].
    + split; [exact Hb'|]. intros _. now rewrite snapshot_format.
    + split; [exact Hb'|]. intros Hw. rewrite Hw in Hno. discriminate Hno.
Qed.

(** X21: When [save_books] completes, what it wrote is in the documented
    format (an array of objects with an integer id, a text title and
    author, an integer year and one of the two statuses) exactly when every
    book in memory is of that kind.  When it raises, the file is left in no
    such format. *)
Theorem saved_file_is_valid_iff (st : State) :
  match Io.save_books st with
  | Returned _ st' =>
      validly_structured (file st') = forallb model_book (books st)
  | Raised _ st' => validly_structured (file st') = false
  end.
Proof.
  unfold Io.save_books. destruct (dumps _); [|reflexivity].
  apply saved_file_format.
Qed.

(** X22: A file in the documented format always loads: the constructor raises
    nothing and every book it builds has an integer id and year, a text
    title and author and one of the two statuses. *)
Theorem valid_file_loads (f : file_state) :
  validly_structured f = true ->
  exists st, Library_init f = Ok st /\ forallb model_book (books st) = true.
Proof. apply valid_file_init. Qed.

Lemma valid_file_loads_witness :
  exists st,
    Library_init
      (Json (VList [VDict [("status", VStr checked_out); ("id", VInt 7);
                           ("year", VInt 1965); ("title", VStr "Dune");
                           ("author", VStr "Herbert"); ("shelf", VInt 3)]]))
      = Ok st /\
    forallb model_book (books st) = true.
Proof.
  exact (valid_file_loads
           (Json (VList [VDict [("status", VStr checked_out); ("id", VInt 7);
                                ("year", VInt 1965); ("title", VStr "Dune");
                                ("author", VStr "Herbert"); ("shelf", VInt 3)]]))
           eq_refl).
Defined.

(** X23: Started on a file in the documented format, after any adds,
    removals and status changes, calls whose save fails included, the books
    in memory are of the documented kind, and the file is in the documented
    format whenever every text the books hold can be encoded as UTF-8. *)
Theorem valid_file_stays_valid (f : file_state) (st : State) :
  validly_structured f = true ->
  io_reachable f st ->
  forallb model_book (books st) = true /\
  (writable (books st) = true -> validly_structured (file st) = true).
Proof. apply io_reachable_keeps_format. Qed.

Lemma valid_file_stays_valid_witness :
  exists st,
    io_reachable (Json (VList [])) st /\ books st <> [] /\
    forallb model_book (books st) = true /\
    validly_structured (file st) = true.
Proof.
  pose (st0 := {| books := []; file := Json (VList []); saves := 0 |}).
  pose (st1 := state_after (Io.add_book "Dune" "Herbert" 1965 st0)).
  assert (R : io_reachable (Json (VList [])) st1).
  { apply io_reach_step with st0; [|apply io_add].
    apply io_reach_init. reflexivity. }
  exists st1. split; [exact R|]. split; [discriminate|].
  destruct (valid_file_stays_valid (Json (VList [])) st1 eq_refl R) as [Hb Hf].
  split; [exact Hb|exact (Hf eq_refl)].
Defined.
